(** * pywebarchive: a shallow embedding of the archive model, the local
    path allocator, the HTML and CSS rewriters and the extraction walk.

    Strings are [String.string]; Python [bytes] are modelled as strings of
    8-bit [ascii] characters.  Python exceptions are the [exn] type and
    fallible code returns [result]. *)

From Stdlib Require Import Strings.String Strings.Ascii Lists.List Arith Lia Bool.
From stdpp Require Import base gmap strings pretty list.

Open Scope string_scope.
Set Warnings "-register-all".

(* ------------------------------------------------------------------ *)
(** ** Python string helpers *)

Module Py.

(** [c in s] for a one-character test. *)
Fixpoint has_char (c : ascii) (s : string) : bool :=
  match s with
  | EmptyString => false
  | String d r => Ascii.eqb c d || has_char c r
  end.

(** [sub in s] *)
Fixpoint contains (sub s : string) : bool :=
  String.prefix sub s ||
  match s with
  | EmptyString => false
  | String _ r => contains sub r
  end.

Definition startswith (s p : string) : bool := String.prefix p s.

Fixpoint last_char (s : string) : option ascii :=
  match s with
  | EmptyString => None
  | String c EmptyString => Some c
  | String _ r => last_char r
  end.

(** [s[:-1]] *)
Fixpoint drop_last (s : string) : string :=
  match s with
  | EmptyString => EmptyString
  | String _ EmptyString => EmptyString
  | String c r => String c (drop_last r)
  end.

(** [s[1:]] *)
Definition drop_first (s : string) : string :=
  match s with EmptyString => EmptyString | String _ r => r end.

(** [c.isspace()] for a character of a [str] below U+0100. *)
Definition is_ws (c : ascii) : bool :=
  match c with
  | "009"%char | "010"%char | "011"%char | "012"%char | "013"%char
  | "028"%char | "029"%char | "030"%char | "031"%char | " "%char
  | "133"%char | "160"%char => true
  | _ => false
  end.

Fixpoint lstrip (s : string) : string :=
  match s with
  | EmptyString => EmptyString
  | String c r => if is_ws c then lstrip r else s
  end.

Fixpoint rev_str (s acc : string) : string :=
  match s with EmptyString => acc | String c r => rev_str r (String c acc) end.

(** [s.strip()] *)
Definition strip (s : string) : string :=
  rev_str (lstrip (rev_str (lstrip s) EmptyString)) EmptyString.

Definition lower_char (c : ascii) : ascii :=
  let n := nat_of_ascii c in
  if (Nat.leb 65 n) && (Nat.leb n 90) then ascii_of_nat (n + 32)%nat else c.

Fixpoint lower (s : string) : string :=
  match s with EmptyString => EmptyString | String c r => String (lower_char c) (lower r) end.

(** [s.split(sep)] for a one-character separator: never empty. *)
Fixpoint split_go (sep : ascii) (cur : string) (s : string) : list string :=
  match s with
  | EmptyString => [rev_str cur EmptyString]
  | String c r =>
      if Ascii.eqb c sep then rev_str cur EmptyString :: split_go sep EmptyString r
      else split_go sep (String c cur) r
  end.

Definition split (sep : ascii) (s : string) : list string := split_go sep EmptyString s.

(** [s.split(sep, 1)]: one or two pieces. *)
Fixpoint split1 (sep : ascii) (s : string) : list string :=
  match s with
  | EmptyString => [EmptyString]
  | String c r =>
      if Ascii.eqb c sep then [EmptyString; r]
      else match split1 sep r with
           | x :: rest => String c x :: rest
           | [] => [String c EmptyString]
           end
  end.

(** [sep.join(xs)] *)
Fixpoint join (sep : string) (xs : list string) : string :=
  match xs with
  | [] => EmptyString
  | [x] => x
  | x :: rest => x +:+ sep +:+ join sep rest
  end.

(** [s.replace(old, new)] for a non-empty [old]: every non-overlapping
    occurrence, left to right.  [skip] counts the characters of the
    occurrence just replaced that are still to be dropped. *)
Fixpoint replace_go (old new : string) (skip : nat) (s : string) : string :=
  match s with
  | EmptyString => EmptyString
  | String c r =>
      match skip with
      | S k => replace_go old new k r
      | O => if String.prefix old s
             then new +:+ replace_go old new (String.length old - 1) r
             else String c (replace_go old new 0 r)
      end
  end.

(** With an empty [old], Python inserts [new] around every character. *)
Fixpoint interleave (new s : string) : string :=
  match s with
  | EmptyString => new
  | String c r => new +:+ String c (interleave new r)
  end.

Definition replace (old new s : string) : string :=
  match old with
  | EmptyString => interleave new s
  | _ => replace_go old new 0 s
  end.

(** [html.escape(s, quote)] *)
Definition escape_char (quote : bool) (c : ascii) : string :=
  if Ascii.eqb c "&" then "&amp;"
  else if Ascii.eqb c "<" then "&lt;"
  else if Ascii.eqb c ">" then "&gt;"
  else if quote && Ascii.eqb c "034"%char then "&quot;"
  else if quote && Ascii.eqb c "'" then "&#x27;"
  else String c EmptyString.

Fixpoint escape (s : string) (quote : bool) : string :=
  match s with
  | EmptyString => EmptyString
  | String c r => escape_char quote c +:+ escape r quote
  end.

(** Characters before the first occurrence of [c] and after it. *)
Fixpoint break_at (c : ascii) (s : string) : option (string * string) :=
  match s with
  | EmptyString => None
  | String d r =>
      if Ascii.eqb c d then Some (EmptyString, r)
      else match break_at c r with
           | Some (a, b) => Some (String d a, b)
           | None => None
           end
  end.

End Py.

(* ------------------------------------------------------------------ *)
(** ** [urllib.parse] and [posixpath], as far as the program uses them *)

Module Url.
Import Py.

Definition is_alpha (c : ascii) : bool :=
  let n := nat_of_ascii c in
  (Nat.leb 65 n && Nat.leb n 90) || (Nat.leb 97 n && Nat.leb n 122).

Definition is_digit (c : ascii) : bool :=
  let n := nat_of_ascii c in Nat.leb 48 n && Nat.leb n 57.

Definition scheme_char (c : ascii) : bool :=
  is_alpha c || is_digit c || has_char c "+-.".

Fixpoint all_chars (p : ascii -> bool) (s : string) : bool :=
  match s with EmptyString => true | String c r => p c && all_chars p r end.

(** The scheme prefix of [urlsplit]: letters, digits, [+-.] before the
    first [:], starting with a letter. *)
Definition split_scheme (url : string) : option (string * string) :=
  match break_at ":" url with
  | Some (String c _ as pre, rest) =>
      if is_alpha c && all_chars scheme_char pre then Some (lower pre, rest) else None
  | _ => None
  end.

(** Longest prefix without a character of [stops]. *)
Fixpoint span_until (stops : string) (s : string) : string * string :=
  match s with
  | EmptyString => (EmptyString, EmptyString)
  | String c r =>
      if has_char c stops then (EmptyString, s)
      else let '(a, b) := span_until stops r in (String c a, b)
  end.

Record split_result := SplitResult {
  u_scheme : string; u_netloc : string; u_path : string;
  u_query : string; u_fragment : string }.

(** [urlsplit(url, scheme)] (parameters of the last path segment are
    left in the path, which is what [urlunsplit] puts back anyway). *)
Definition urlsplit (url default_scheme : string) : split_result :=
  let '(scheme, url1) :=
    match split_scheme url with Some p => p | None => (default_scheme, url) end in
  let '(netloc, url2) :=
    if String.prefix "//" url1
    then span_until "/?#" (drop_first (drop_first url1))
    else (EmptyString, url1) in
  let '(url3, fragment) :=
    match split1 "#" url2 with [a; b] => (a, b) | _ => (url2, EmptyString) end in
  let '(path, query) :=
    match split1 "?" url3 with [a; b] => (a, b) | _ => (url3, EmptyString) end in
  SplitResult scheme netloc path query fragment.

Definition uses_relative : list string :=
  [EmptyString; "ftp"; "http"; "gopher"; "nntp"; "imap"; "wais"; "file"; "https";
   "shttp"; "mms"; "prospero"; "rtsp"; "rtsps"; "rtspu"; "sftp"; "svn";
   "svn+ssh"; "ws"; "wss"].

Definition uses_netloc : list string :=
  [EmptyString; "ftp"; "http"; "gopher"; "nntp"; "telnet"; "imap"; "wais"; "file";
   "mms"; "https"; "shttp"; "snews"; "prospero"; "rtsp"; "rtsps"; "rtspu";
   "rsync"; "svn"; "svn+ssh"; "sftp"; "nfs"; "git"; "git+ssh"; "ws"; "wss";
   "itms-services"].

Definition mem (x : string) (l : list string) : bool := existsb (String.eqb x) l.

Definition nonempty (s : string) : bool :=
  match s with EmptyString => false | _ => true end.

Definition urlunsplit (u : split_result) : string :=
  let url := u_path u in
  let url :=
    if nonempty (u_netloc u) ||
       (nonempty (u_scheme u) && mem (u_scheme u) uses_netloc && negb (String.prefix "//" url))
    then let url := if nonempty url && negb (String.prefix "/" url) then "/" +:+ url else url in
         "//" +:+ u_netloc u +:+ url
    else url in
  let url := if nonempty (u_scheme u) then u_scheme u +:+ ":" +:+ url else url in
  let url := if nonempty (u_query u) then url +:+ "?" +:+ u_query u else url in
  if nonempty (u_fragment u) then url +:+ "#" +:+ u_fragment u else url.

(** [segments[1:-1] = filter(None, segments[1:-1])] *)
Definition filter_middle (l : list string) : list string :=
  match l with
  | [] => []
  | [x] => [x]
  | x :: rest => x :: (filter nonempty (removelast rest) ++ [List.last rest EmptyString])%list
  end.

Definition resolve_step (acc : list string) (seg : string) : list string :=
  if String.eqb seg ".." then match acc with [] => [] | _ :: a => a end
  else if String.eqb seg "." then acc
  else seg :: acc.

Definition urljoin (base url : string) : string :=
  if negb (nonempty base) then url else
  if negb (nonempty url) then base else
  let b := urlsplit base EmptyString in
  let u := urlsplit url (u_scheme b) in
  if negb (String.eqb (u_scheme u) (u_scheme b)) || negb (mem (u_scheme u) uses_relative)
  then url else
  if mem (u_scheme u) uses_netloc && nonempty (u_netloc u) then urlunsplit u else
  let netloc := if mem (u_scheme u) uses_netloc then u_netloc b else u_netloc u in
  if negb (nonempty (u_path u)) then
    urlunsplit (SplitResult (u_scheme u) netloc (u_path b)
                  (if nonempty (u_query u) then u_query u else u_query b) (u_fragment u))
  else
  let base_parts := split "/" (u_path b) in
  let base_parts :=
    if nonempty (List.last base_parts EmptyString) then removelast base_parts else base_parts in
  let segments :=
    if String.prefix "/" (u_path u) then split "/" (u_path u)
    else filter_middle (base_parts ++ split "/" (u_path u))%list in
  let resolved := rev (fold_left resolve_step segments []) in
  let lastseg := List.last segments EmptyString in
  let resolved :=
    if String.eqb lastseg "." || String.eqb lastseg ".." then (resolved ++ [EmptyString])%list
    else resolved in
  let path := join "/" resolved in
  urlunsplit (SplitResult (u_scheme u) netloc (if nonempty path then path else "/")
                (u_query u) (u_fragment u)).

(** [os.path.basename] *)
Definition basename (p : string) : string :=
  rev_str (fst (span_until "/" (rev_str p EmptyString))) EmptyString.

Definition uses_params : list string :=
  [EmptyString; "ftp"; "hdl"; "prospero"; "http"; "imap"; "https"; "shttp"; "rtsp";
   "rtsps"; "rtspu"; "sip"; "sips"; "mms"; "sftp"; "tel"].

(** [_splitparams(url)], which [urlparse] calls on a path holding a [;]. *)
Definition splitparams (url : string) : string * string :=
  if has_char "/" url then
    (* [url.find(';', url.rfind('/'))]: a [;] of the last segment *)
    let dir := rev_str (snd (span_until "/" (rev_str url EmptyString))) EmptyString in
    match break_at ";" (basename url) with
    | Some (a, b) => (dir +:+ a, b)
    | None => (url, EmptyString)
    end
  else
    match break_at ";" url with
    | Some (a, b) => (a, b)
    | None => (String.substring 0 (String.length url - 1) url, url)
    end.

(** The path component of [urlparse(url, scheme)]. *)
Definition urlparse_path (url default_scheme : string) : string :=
  let u := urlsplit url default_scheme in
  if mem (u_scheme u) uses_params && has_char ";" (u_path u)
  then fst (splitparams (u_path u)) else u_path u.

(** URLs of printable ASCII characters other than the space and the
    square brackets.  On these Python's [urlsplit] (and so [urlparse]
    and [urljoin]) raises no [ValueError] (no IPv6 host, no non-ASCII
    network location to normalise) and removes no character (no leading
    control character or space, no tab or newline), as [urlsplit] above
    does not. *)
Definition url_safe (u : string) : bool :=
  all_chars (fun c => Nat.leb 33 (nat_of_ascii c) && Nat.leb (nat_of_ascii c) 126 &&
                      negb (Ascii.eqb c "[") && negb (Ascii.eqb c "]")) u.

Fixpoint lstrip_slash (s : string) : string :=
  match s with
  | String "/" r => lstrip_slash r
  | _ => s
  end.

(** [os.path.dirname] *)
Definition dirname (p : string) : string :=
  let head := rev_str (snd (span_until "/" (rev_str p EmptyString))) EmptyString in
  if nonempty head && negb (all_chars (Ascii.eqb "/") head)
  then rev_str (lstrip_slash (rev_str head EmptyString)) EmptyString
  else head.

(** [os.path.join(a, b)] *)
Definition path_join (a b : string) : string :=
  if String.prefix "/" b then b
  else if negb (nonempty a) || (match last_char a with Some "/"%char => true | _ => false end)
  then a +:+ b
  else a +:+ "/" +:+ b.

(** [os.path.splitext] of a name without [/]: the extension starts at the
    last dot, unless only dots precede it. *)
Definition splitext (p : string) : string * string :=
  let sep := rev_str (snd (span_until "/" (rev_str p EmptyString))) EmptyString in
  let name := rev_str (fst (span_until "/" (rev_str p EmptyString))) EmptyString in
  match break_at "." (rev_str name EmptyString) with
  | Some (ext_rev, stem_rev) =>
      let stem := rev_str stem_rev EmptyString in
      if all_chars (Ascii.eqb ".") stem then (p, EmptyString)
      else (sep +:+ stem, "." +:+ rev_str ext_rev EmptyString)
  | None => (p, EmptyString)
  end.

End Url.

(* ------------------------------------------------------------------ *)
(** ** Exceptions, resources and archives *)

(** The exceptions the modelled code raises. *)
Inductive exn :=
| WebArchiveError (msg : string)
| TypeError (msg : string)
| ValueError (msg : string)
| AttributeError
| KeyError.

Inductive result (A : Type) := Ok (a : A) | Err (e : exn).
Arguments Ok {A} a.
Arguments Err {A} e.

Global Instance result_ret : MRet result := fun A a => Ok a.
Global Instance result_bind : MBind result :=
  fun A B k m => match m with Ok a => k a | Err e => Err e end.

(** [WebResource] (webresource.py).  The back-reference to the parent
    archive is not a field: the functions that need it take the archive. *)
Record resource := Resource {
  data : string;
  mime_type : string;
  url : string;
  text_encoding : option string;
  frame_name : option string }.

(** [WebArchive] (webarchive.py): [_main_resource], [_subresources],
    [_subframe_archives] and the [_local_paths] dictionary. *)
Inductive archive := Archive {
  main_resource : option resource;
  subresources : list resource;
  subframe_archives : list archive;
  local_paths : gmap string string }.

(** [WebArchive()] *)
Definition empty_archive : archive := Archive None [] [] ∅.

(** [WebArchive.resource_count] *)
Fixpoint resource_count (a : archive) : nat :=
  (match main_resource a with Some _ => 1 | None => 0 end)
  + length (subresources a)
  + (fix go (l : list archive) : nat :=
       match l with [] => 0 | sf :: rest => resource_count sf + go rest end)
      (subframe_archives a).

(** [WebArchive.get_local_path] *)
Definition get_local_path (a : archive) (u : string) : result string :=
  match local_paths a !! u with
  | Some p => Ok p
  | None => Err (WebArchiveError "no local path for the specified URL")
  end.

(** [WebArchive.get_subresource] *)
Definition get_subresource (a : archive) (u : string) : result resource :=
  if negb (Py.contains "://" u) then Err (WebArchiveError "must specify an absolute URL")
  else match find (fun r => String.eqb (url r) u) (subresources a) with
       | Some r => Ok r
       | None => Err (WebArchiveError "no subresource for the specified URL")
       end.

(** [WebArchive.get_subframe_archive]; a subframe archive without a main
    resource makes [subframe_archive.main_resource.url] raise. *)
Fixpoint find_subframe (u : string) (l : list archive) : result archive :=
  match l with
  | [] => Err (WebArchiveError "no subframe archive for the specified URL")
  | sf :: rest =>
      match main_resource sf with
      | None => Err AttributeError
      | Some m => if String.eqb (url m) u then Ok sf else find_subframe u rest
      end
  end.

Definition get_subframe_archive (a : archive) (u : string) : result archive :=
  if negb (Py.contains "://" u) then Err (WebArchiveError "must specify an absolute URL")
  else find_subframe u (subframe_archives a).

(* ------------------------------------------------------------------ *)
(** ** The local path allocator ([_make_local_path], [_make_local_paths]) *)

(** [mimetypes.guess_extension]: the first extension of each type in
    Python 3.11's own table (no system [mime.types] file read), with the
    types added at the end of webarchive.py. *)
Definition mime_extensions : list (string * string) :=
  [("application/font-woff", ".woff"); ("application/javascript", ".js");
   ("application/json", ".json"); ("application/manifest+json", ".webmanifest");
   ("application/msword", ".doc"); ("application/n-quads", ".nq");
   ("application/n-triples", ".nt"); ("application/octet-stream", ".bin");
   ("application/oda", ".oda"); ("application/pdf", ".pdf");
   ("application/pkcs7-mime", ".p7c"); ("application/postscript", ".ps");
   ("application/trig", ".trig"); ("application/vnd.apple.mpegurl", ".m3u");
   ("application/vnd.ms-excel", ".xls"); ("application/vnd.ms-powerpoint", ".ppt");
   ("application/wasm", ".wasm"); ("application/x-bcpio", ".bcpio");
   ("application/x-cpio", ".cpio"); ("application/x-csh", ".csh");
   ("application/x-dvi", ".dvi"); ("application/x-font-woff", ".woff");
   ("application/x-gtar", ".gtar"); ("application/x-hdf", ".hdf");
   ("application/x-hdf5", ".h5"); ("application/x-javascript", ".js");
   ("application/x-latex", ".latex"); ("application/x-mif", ".mif");
   ("application/x-netcdf", ".cdf"); ("application/x-pkcs12", ".p12");
   ("application/x-pn-realaudio", ".ram"); ("application/x-python-code", ".pyc");
   ("application/x-sh", ".sh"); ("application/x-shar", ".shar");
   ("application/x-shockwave-flash", ".swf"); ("application/x-sv4cpio", ".sv4cpio");
   ("application/x-sv4crc", ".sv4crc"); ("application/x-tar", ".tar");
   ("application/x-tcl", ".tcl"); ("application/x-tex", ".tex");
   ("application/x-texinfo", ".texi"); ("application/x-troff", ".roff");
   ("application/x-troff-man", ".man"); ("application/x-troff-me", ".me");
   ("application/x-troff-ms", ".ms"); ("application/x-ustar", ".ustar");
   ("application/x-wais-source", ".src"); ("application/xml", ".xsl");
   ("application/zip", ".zip"); ("audio/3gpp", ".3gp"); ("audio/3gpp2", ".3g2");
   ("audio/aac", ".aac"); ("audio/basic", ".au"); ("audio/mpeg", ".mp3");
   ("audio/opus", ".opus"); ("audio/x-aiff", ".aif"); ("audio/x-pn-realaudio", ".ra");
   ("audio/x-wav", ".wav"); ("font/woff", ".woff"); ("font/woff2", ".woff2");
   ("image/avif", ".avif"); ("image/bmp", ".bmp"); ("image/gif", ".gif");
   ("image/heic", ".heic"); ("image/heif", ".heif"); ("image/ief", ".ief");
   ("image/jpeg", ".jpg"); ("image/png", ".png"); ("image/svg+xml", ".svg");
   ("image/tiff", ".tiff"); ("image/vnd.microsoft.icon", ".ico");
   ("image/x-cmu-raster", ".ras"); ("image/x-portable-anymap", ".pnm");
   ("image/x-portable-bitmap", ".pbm"); ("image/x-portable-graymap", ".pgm");
   ("image/x-portable-pixmap", ".ppm"); ("image/x-rgb", ".rgb");
   ("image/x-xbitmap", ".xbm"); ("image/x-xpixmap", ".xpm");
   ("image/x-xwindowdump", ".xwd"); ("message/rfc822", ".eml"); ("text/css", ".css");
   ("text/csv", ".csv"); ("text/html", ".html"); ("text/javascript", ".js");
   ("text/n3", ".n3"); ("text/plain", ".txt"); ("text/richtext", ".rtx");
   ("text/tab-separated-values", ".tsv"); ("text/vtt", ".vtt");
   ("text/x-python", ".py"); ("text/x-setext", ".etx"); ("text/x-sgml", ".sgm");
   ("text/x-vcard", ".vcf"); ("text/xml", ".xml"); ("video/mp4", ".mp4");
   ("video/mpeg", ".mpeg"); ("video/quicktime", ".mov"); ("video/webm", ".webm");
   ("video/x-msvideo", ".avi"); ("video/x-sgi-movie", ".movie")].

(** The type is looked up in lower case. *)
Definition guess_extension (mime : string) : option string :=
  option_map snd (find (fun p => String.eqb (fst p) (Py.lower mime)) mime_extensions).

(** The characters replaced by [_] in a base name, in the order of the
    source's loop. *)
Definition unsafe_chars : list string :=
  ["%"; "<"; ">"; ":"; String "034" EmptyString; "/"; "\"; "|"; "?"; "*"].

Definition sanitize (base : string) : string :=
  fold_left (fun b c => Py.replace c "_" b) unsafe_chars base.

Definition reserved_name (base : string) : bool :=
  Url.mem (Py.lower base) ["con"; "prn"; "aux"; "nul"] ||
  (Nat.eqb (String.length base) 4 &&
   Url.mem (Py.lower (String.substring 0 3 base)) ["com"; "lpt"] &&
   match String.get 3 base with Some c => Url.is_digit c | None => false end).

(** The base name, before sanitising, from [urlparse(res.url)]. *)
Definition url_base (r : resource) : string :=
  let base :=
    if Url.nonempty (url r) then
      let parsed := Url.urlsplit (url r) EmptyString in
      if String.eqb (Url.u_scheme parsed) "data" then "data_url"
      else fst (Url.splitext (Url.basename (Url.urlparse_path (url r) EmptyString)))
    else EmptyString in
  if Url.nonempty base then base else "blank_url".

Definition path_base (r : resource) : string :=
  let base := sanitize (url_base r) in
  if reserved_name base then base +:+ "_" else base.

Definition path_ext (r : resource) : string :=
  match guess_extension (mime_type r) with Some e => e | None => EmptyString end.

(** [local_path in self._local_paths.values()] *)
Definition in_values (m : gmap string string) (v : string) : bool :=
  existsb (fun kv => String.eqb kv.2 v) (map_to_list m).

(** The name tried with copy number [k]: [base.ext] for 1, [base.k.ext]
    after that. *)
Definition candidate (base ext : string) (k : nat) : string :=
  if Nat.eqb k 1 then base +:+ ext else base +:+ "." +:+ pretty k +:+ ext.

(** The [while] loop of [_make_local_path].  Each turn takes a fresh
    candidate, and the candidates are pairwise distinct, so the loop stops
    within [size m] turns (lemma [copy_loop_fresh]); [fuel] is that bound. *)
Fixpoint copy_loop (m : gmap string string) (base ext : string)
    (fuel copy_num : nat) (local_path : string) : string :=
  match fuel with
  | O => local_path
  | S f =>
      if in_values m local_path
      then copy_loop m base ext f (S copy_num) (candidate base ext (S copy_num))
      else local_path
  end.

(** [WebArchive._make_local_path]: the allocated name and the updated
    dictionary. *)
Definition make_local_path (m : gmap string string) (r : resource)
    : string * gmap string string :=
  let base := path_base r in
  let ext := path_ext r in
  let p := copy_loop m base ext (size m) 1 (base +:+ ext) in
  (p, <[url r := p]> m).

(** The resources [_make_local_paths] walks: main resource, subresources,
    and the main resource of each subframe archive. *)
Definition path_resources (a : archive) : result (list resource) :=
  let mains :=
    fold_right (fun sf acc =>
                  r ← acc ; match main_resource sf with
                              | Some m => Ok (m :: r)
                              | None => Err AttributeError
                              end)
               (Ok []) (subframe_archives a) in
  ms ← mains ;
  Ok (match main_resource a with Some m => [m] | None => [] end
      ++ subresources a ++ ms)%list.

Definition allocate (m : gmap string string) (r : resource) : gmap string string :=
  match m !! url r with
  | Some _ => m
  | None => let '(p, m') := make_local_path m r in <[url r := p]> m'
  end.

(** [WebArchive._make_local_paths].  Python's [urlparse] raises
    [ValueError] on some URLs (see [Url.url_safe]) which [url_base] does
    not reject: statements whose conclusion depends on
    [_make_local_paths] not raising assume [urls_safe]. *)
Definition make_local_paths (a : archive) : result archive :=
  rs ← path_resources a ;
  Ok (Archive (main_resource a) (subresources a) (subframe_archives a)
              (fold_left allocate rs (local_paths a))).

(** No two URLs of the dictionary share a local path. *)
Definition map_inj (m : gmap string string) : Prop :=
  forall k1 k2 v, m !! k1 = Some v -> m !! k2 = Some v -> k1 = k2.

(** The same, as a check on the dictionary's values. *)
Definition values_distinct (m : gmap string string) : bool :=
  bool_decide (NoDup ((map_to_list m).*2)).

(** The URLs [_make_local_paths] may hand to [urlparse]: those of the
    main resource, the subresources and the subframes' main resources. *)
Definition walked_urls (a : archive) : list string :=
  map url (match main_resource a with Some m => [m] | None => [] end
           ++ subresources a
           ++ flat_map (fun sf => match main_resource sf with Some m => [m] | None => [] end)
                       (subframe_archives a))%list.

(** None of them can make [urlparse] raise. *)
Definition urls_safe (a : archive) : bool := forallb Url.url_safe (walked_urls a).

(* ------------------------------------------------------------------ *)
(** ** Extraction ([WebArchive.extract] and its helpers) *)

(** The observable effects of an extraction: hook calls, files opened for
    writing, and directories created. *)
Inductive event :=
| BeforeCb (r : option resource) (path : string)
| AfterCb (r : option resource) (path : string)
| WriteFile (path : string)
| MakeDirs (path : string).

(** The callbacks.  [canceled_cb] answers according to how many times it
    has been called so far. *)
Record hooks := Hooks {
  before_cb : bool;
  after_cb : bool;
  canceled_cb : option (nat -> bool) }.

(** Events, most recent first, and the number of [canceled_cb] calls. *)
Record st := St { trace : list event; cancel_calls : nat }.

(** State threaded through the walk; an exception keeps the effects made
    before it. *)
Definition M (A : Type) : Type := st -> st * result A.

Definition retM {A} (a : A) : M A := fun s => (s, Ok a).
Definition raiseM {A} (e : exn) : M A := fun s => (s, Err e).
Definition bindM {A B} (m : M A) (k : A -> M B) : M B :=
  fun s => match m s with
           | (s', Ok a) => k a s'
           | (s', Err e) => (s', Err e)
           end.
Definition liftM {A} (r : result A) : M A := fun s => (s, r).

Notation "'let*' x := m 'in' k" := (bindM m (fun x => k))
  (at level 200, x name, m at level 100, k at level 200).
Notation "m ;; k" := (bindM m (fun _ : unit => k)) (at level 100, right associativity).

Definition emit (e : event) : M unit :=
  fun s => (St (e :: trace s) (cancel_calls s), Ok tt).

(** [canceled_cb and canceled_cb()] *)
Definition canceled (h : hooks) : M bool :=
  match canceled_cb h with
  | None => retM false
  | Some f => fun s => (St (trace s) (S (cancel_calls s)), Ok (f (cancel_calls s)))
  end.

Definition BEFORE (h : hooks) (r : option resource) (path : string) : M unit :=
  if before_cb h then emit (BeforeCb r path) else retM tt.
Definition AFTER (h : hooks) (r : option resource) (path : string) : M unit :=
  if after_cb h then emit (AfterCb r path) else retM tt.

(** [<stem>_files] for an output path. *)
Definition subresource_dir_base (output_path : string) : string :=
  fst (Url.splitext (Url.basename output_path)) +:+ "_files".

Definition subresource_dir (output_path : string) : string :=
  Url.path_join (Url.dirname output_path) (subresource_dir_base output_path).

Section Extract.

(** The MIME type test and the document rewriters that extraction calls
    ([is_html_mime_type], [process_html_resource] and
    [process_css_resource]): webarchive.py imports them from util.py,
    which does not define them.  Of the rewriters only whether they raise
    matters here; every statement holds for any choice of them. *)
Variable is_html_mime_type : string -> bool.
Variable process_html_resource : resource -> option string -> result unit.
Variable process_css_resource : resource -> result unit.

(** [WebArchive._extract_main_resource]: the output file is opened before
    the rewriter runs. *)
Definition extract_main_resource (a : archive) (output_path : string)
    (subdir : option string) : M unit :=
  match main_resource a with
  | None => raiseM (WebArchiveError "archive does not have a main resource")
  | Some m =>
      if is_html_mime_type (mime_type m)
      then emit (WriteFile output_path) ;; liftM (process_html_resource m subdir)
      else emit (WriteFile output_path)
  end.

(** [WebArchive._extract_subresource] *)
Definition extract_subresource (r : resource) (output_path : string) : M unit :=
  if String.eqb (mime_type r) "text/css"
  then emit (WriteFile output_path) ;; liftM (process_css_resource r)
  else if is_html_mime_type (mime_type r)
  then emit (WriteFile output_path) ;; liftM (process_html_resource r (Some EmptyString))
  else emit (WriteFile output_path).

(** [self._local_paths[url]] *)
Definition lookup_path (a : archive) (u : string) : result string :=
  match local_paths a !! u with Some p => Ok p | None => Err KeyError end.

(** The subresource loop of [extract]; [true] when it stopped on a
    cancellation, which returns from [extract]. *)
Fixpoint subresource_loop (h : hooks) (a : archive) (dir : string)
    (l : list resource) : M bool :=
  match l with
  | [] => retM false
  | r :: rest =>
      let* p := liftM (lookup_path a (url r)) in
      let path := Url.path_join dir p in
      let* c := canceled h in
      if c then retM true
      else BEFORE h (Some r) path ;;
           extract_subresource r path ;;
           AFTER h (Some r) path ;;
           subresource_loop h a dir rest
  end.

(** The subframe loop of [extract]; [ex] extracts one subframe archive to
    a path (the recursive call). *)
Fixpoint frames_loop (ex : archive -> string -> M unit) (h : hooks) (a' : archive)
    (dir : string) (l : list archive) : M unit :=
  match l with
  | [] => retM tt
  | sf :: rest =>
      let* c := canceled h in
      if c then retM tt else
      match main_resource sf with
      | None => raiseM AttributeError
      | Some sf_main =>
          let* p := liftM (lookup_path a' (url sf_main)) in
          ex sf (Url.path_join dir p) ;;
          frames_loop ex h a' dir rest
      end
  end.

(** [WebArchive.extract] *)
Fixpoint extract (a : archive) (output_path : string) (embed_subresources : bool)
    (h : hooks) {struct a} : M unit :=
  let* c := canceled h in
  if c then retM tt else
  if embed_subresources then
    BEFORE h (main_resource a) output_path ;;
    extract_main_resource a output_path None ;;
    AFTER h (main_resource a) output_path
  else
    let* a' := liftM (make_local_paths a) in
    let dir_base := subresource_dir_base output_path in
    let dir := subresource_dir output_path in
    BEFORE h (main_resource a') output_path ;;
    extract_main_resource a' output_path (Some dir_base) ;;
    AFTER h (main_resource a') output_path ;;
    (match subresources a', subframe_archives a' with
     | [], [] => retM tt
     | _, _ => emit (MakeDirs dir)
     end) ;;
    let* stopped := subresource_loop h a' dir (subresources a') in
    if stopped then retM tt else
    frames_loop (fun sf p => extract sf p embed_subresources h) h a' dir
                (subframe_archives a).

End Extract.

Definition init_st : st := St [] 0.

(** The first answer of [canceled_cb], if it is given. *)
Definition first_cancel (h : hooks) : bool :=
  match canceled_cb h with Some f => f 0 | None => false end.

Definition frames_have_mains (a : archive) : bool :=
  forallb (fun sf => match main_resource sf with Some _ => true | None => false end)
          (subframe_archives a).

Definition is_write (e : event) : bool :=
  match e with WriteFile _ => true | _ => false end.
Definition is_mkdir (e : event) : bool :=
  match e with MakeDirs _ => true | _ => false end.

(* ------------------------------------------------------------------ *)
(** ** The markup and style sheet rewriters (util.py) *)

(** [base64.b64encode] over the bytes of [s]. *)
Definition b64_alphabet : string :=
  "ABCDEFGHIJKLMNOPQRSTUVWXYZabcdefghijklmnopqrstuvwxyz0123456789+/".

Definition b64_char (n : nat) : string :=
  match String.get n b64_alphabet with Some c => String c EmptyString | None => EmptyString end.

Fixpoint b64encode (s : string) : string :=
  match s with
  | String a (String b (String c r)) =>
      let x := nat_of_ascii a in let y := nat_of_ascii b in let z := nat_of_ascii c in
      b64_char (x / 4) +:+ b64_char ((x mod 4) * 16 + y / 16)
      +:+ b64_char ((y mod 16) * 4 + z / 64) +:+ b64_char (z mod 64) +:+ b64encode r
  | String a (String b EmptyString) =>
      let x := nat_of_ascii a in let y := nat_of_ascii b in
      b64_char (x / 4) +:+ b64_char ((x mod 4) * 16 + y / 16)
      +:+ b64_char ((y mod 16) * 4) +:+ "="
  | String a EmptyString =>
      let x := nat_of_ascii a in
      b64_char (x / 4) +:+ b64_char ((x mod 4) * 16) +:+ "=="
  | EmptyString => EmptyString
  end.

(** [make_data_uri] *)
Definition make_data_uri (mime_type data : string) : string :=
  "data:" +:+ mime_type +:+ ";base64," +:+ b64encode data.

(** [WebResource.to_data_uri] for a resource that is neither its
    archive's main resource nor a style sheet: its own bytes. *)
Definition plain_data_uri (r : resource) : string := make_data_uri (mime_type r) (data r).

(** The double quote, as a one-character string. *)
Definition dq : string := String "034" EmptyString.

(** [except (WebArchiveError): pass], keeping [dflt]. *)
Definition catch_wae (r : result string) (dflt : string) : result string :=
  match r with Err (WebArchiveError _) => Ok dflt | _ => r end.

(** [RX_STYLE_SHEET_URL.findall(s)] for [url\(([^\)]+)\)]: at each
    position, [url(] followed by a non-empty run of characters other than
    [)] and a [)]; the search resumes after the [)]. *)
Fixpoint findall_go (fuel : nat) (s : string) : list string :=
  match fuel with
  | O => []
  | S f =>
      match s with
      | EmptyString => []
      | String _ r =>
          if String.prefix "url(" s then
            match Py.break_at ")" (substring 4 (String.length s - 4) s) with
            | Some (String c g, rest) => String c g :: findall_go f rest
            | _ => findall_go f r
            end
          else findall_go f r
      end
  end.

Definition findall_url (s : string) : list string := findall_go (String.length s) s.

(** [s.endswith(c)] for a one-character [c]. *)
Definition ends_with_char (c : ascii) (s : string) : bool :=
  match Py.last_char s with Some d => Ascii.eqb c d | None => false end.

(** The quote removal of [process_style_sheet]. *)
Definition unquote (m : string) : string :=
  let m := if Py.startswith m dq || Py.startswith m "'" then Py.drop_first m else m in
  if ends_with_char "034" m || ends_with_char "'" m then Py.drop_last m else m.

(** [if local_paths:] *)
Definition paths_truthy (local_paths : option (gmap string string)) : bool :=
  match local_paths with Some lp => negb (bool_decide (lp = ∅)) | None => false end.

(** The processor's state: [_archive], its main resource, [_root] and
    [_is_xhtml]. *)
Record processor := Processor {
  proc_archive : archive;
  proc_main : resource;
  proc_root : option string;
  proc_is_xhtml : bool }.

(** [MainResourceProcessor.__init__] *)
Definition make_processor (a : archive) (root : option string) : result processor :=
  match main_resource a with
  | Some m => Ok (Processor a m root (String.eqb (mime_type m) "application/xhtml+xml"))
  | None => Err AttributeError
  end.

(** [if self._root:] *)
Definition root_truthy (p : processor) : bool :=
  match proc_root p with Some r => Url.nonempty r | None => false end.

(** [_absolute_url] *)
Definition absolute_url (p : processor) (u : string) : string :=
  Url.urljoin (url (proc_main p)) u.

(** [_resource_url] *)
Definition resource_url (p : processor) (orig_url : string) : string :=
  let abs_url := absolute_url p orig_url in
  match get_local_path (proc_archive p) abs_url with
  | Ok local_path =>
      match proc_root p with
      | Some r => if Url.nonempty r then r +:+ "/" +:+ local_path else local_path
      | None => local_path
      end
  | Err _ => abs_url
  end.

(** [_VOID_ELEMENTS] *)
Definition VOID_ELEMENTS : list string :=
  ["area"; "base"; "br"; "col"; "embed"; "hr"; "img"; "input"; "link";
   "meta"; "param"; "source"; "track"; "wbr"; "command"; "keygen"; "menuitem"].

Definition processed_marker : string :=
  "<!-- Processed by pywebarchive -->" +:+ String "010" EmptyString.

Section Rewriter.

(** [WebResource.to_data_uri] and the data URI made of a subframe
    archive ([sf.to_html()] encoded, through [make_data_uri]): both go
    through document rewriters that util.py does not define, so they are
    left as parameters; a [WebArchiveError] they raise is caught where the
    source catches it. *)
Variable to_data_uri : resource -> result string.
Variable frame_data_uri : archive -> result string.

(** One pass of the [for match in matches] loop of [process_style_sheet]. *)
Definition style_sheet_step (res : resource) (subresources : list resource)
    (local_paths : option (gmap string string)) (content match_ : string) : result string :=
  let m := unquote match_ in
  if String.eqb m EmptyString then Ok content else
  let abs_url := Url.urljoin (url res) m in
  let embedded :=
    replacement ← match find (fun s => String.eqb (url s) abs_url) subresources with
                  | Some s => to_data_uri s
                  | None => Ok abs_url
                  end ;
    Ok (Py.replace m abs_url content) in
  match local_paths with
  | Some lp =>
      if paths_truthy local_paths then
        match lp !! abs_url with
        | Some local_url => Ok (Py.replace m local_url content)
        | None => Ok (Py.replace m abs_url content)
        end
      else embedded
  | None => embedded
  end.

Fixpoint style_sheet_loop (res : resource) (subresources : list resource)
    (local_paths : option (gmap string string)) (content : string) (matches : list string)
    : result string :=
  match matches with
  | [] => Ok content
  | m :: rest =>
      content' ← style_sheet_step res subresources local_paths content m ;
      style_sheet_loop res subresources local_paths content' rest
  end.

(** [process_style_sheet]; [str(res)] of a style sheet is its text. *)
Definition process_style_sheet (res : resource) (subresources : list resource)
    (local_paths : option (gmap string string)) : result string :=
  if negb (String.eqb (mime_type res) "text/css")
  then Err (TypeError "res must have mime_type == 'text/css'")
  else style_sheet_loop res subresources local_paths (data res) (findall_url (data res)).

(** The [srcset] loop of [_process_attr_value]. *)
Fixpoint srcset_items (p : processor) (items : list string) : result (list string) :=
  match items with
  | [] => Ok []
  | item :: rest =>
      match Py.split1 " " item with
      | [src; res] =>
          rest' ← srcset_items p rest ;
          Ok ((resource_url p src +:+ " " +:+ res) :: rest')
      | _ => Err (ValueError "not enough values to unpack")
      end
  end.

(** [MainResourceProcessor._process_attr_value] *)
Definition process_attr_value (p : processor) (tag attr value : string) : result string :=
  let a := proc_archive p in
  if (String.eqb tag "a" && String.eqb attr "href")
     || (String.eqb tag "form" && String.eqb attr "action") then
    Ok (Py.escape (absolute_url p value) true)
  else if String.eqb attr "src" || (String.eqb tag "link" && String.eqb attr "href") then
    if Url.mem tag ["frame"; "iframe"] then
      if root_truthy p then Ok (Py.escape (resource_url p value) true)
      else
        value ← catch_wae (sf ← get_subframe_archive a (absolute_url p value) ;
                           frame_data_uri sf) value ;
        Ok (Py.escape value true)
    else
      if root_truthy p then Ok (Py.escape (resource_url p value) true)
      else
        value ← catch_wae (r ← get_subresource a (absolute_url p value) ;
                           to_data_uri r) value ;
        Ok (Py.escape value true)
  else if String.eqb attr "srcset" then
    srcset ← srcset_items p (map Py.strip (Py.split "," value)) ;
    Ok (Py.escape (Py.join ", " srcset) true)
  else Ok (Py.escape value true).

(** The attribute loop of [_build_starttag]; [img] loses its [srcset]. *)
Fixpoint attrs_text (p : processor) (tag : string) (attrs : list (string * string))
    : result string :=
  match attrs with
  | [] => Ok EmptyString
  | (attr, value) :: rest =>
      if String.eqb tag "img" && String.eqb attr "srcset" then attrs_text p tag rest
      else
        v ← process_attr_value p tag attr value ;
        t ← attrs_text p tag rest ;
        Ok (" " +:+ attr +:+ "=" +:+ dq +:+ v +:+ dq +:+ t)
  end.

(** The scan of a [link] tag's attributes: its [href], made absolute, and
    whether it has [rel="stylesheet"]. *)
Definition link_scan (p : processor) (attrs : list (string * string)) : option string * bool :=
  fold_left (fun acc av =>
               let '(link_href, is_stylesheet) := acc in
               let '(attr, value) := av in
               if String.eqb attr "rel" && String.eqb (Py.lower value) "stylesheet"
               then (link_href, true)
               else if String.eqb attr "href" then (Some (absolute_url p value), is_stylesheet)
               else acc)
            attrs (None, false).

(** [MainResourceProcessor._build_starttag]; attributes are (name, value)
    pairs (an attribute written without a value, which HTMLParser reports
    with the value [None], is outside the model). *)
Definition build_starttag (p : processor) (tag : string) (attrs : list (string * string))
    (is_empty : bool) : result string :=
  let standard :=
    body ← attrs_text p tag attrs ;
    let close := if proc_is_xhtml p && (is_empty || Url.mem tag VOID_ELEMENTS)
                 then " />" else ">" in
    let tag_data := "<" +:+ tag +:+ body +:+ close in
    Ok (if String.eqb tag "html" then processed_marker +:+ tag_data else tag_data) in
  match proc_root p with
  | None =>
      if String.eqb tag "link" then
        let '(link_href, is_stylesheet) := link_scan p attrs in
        if is_stylesheet then
          content ← catch_wae
            (match link_href with
             | None => Err (TypeError "argument of type 'NoneType' is not iterable")
             | Some h =>
                 r ← get_subresource (proc_archive p) h ;
                 process_style_sheet r (subresources (proc_archive p)) None
             end) EmptyString ;
          Ok ("<style>" +:+ content +:+ "</style>")
        else standard
      else standard
  | Some _ => standard
  end.

End Rewriter.

(** The events [HTMLParser] reports while it reads a document, one per
    handler method of [MainResourceProcessor] (the tokenizer itself is
    not modelled: a document is the list of events it yields). *)
Inductive html_event :=
| StartTag (tag : string) (attrs : list (string * string))
| StartEndTag (tag : string) (attrs : list (string * string))
| EndTag (tag : string)
| Data (d : string)
| EntityRef (name : string)
| CharRef (name : string)
| Comment (d : string)
| Decl (decl : string).

(** A declaration that [handle_decl] takes for an XHTML document type. *)
Definition xhtml_decl (e : html_event) : bool :=
  match e with Decl decl => Py.contains "//DTD XHTML " decl | _ => false end.

(** [self._is_xhtml = True] *)
Definition set_xhtml (p : processor) : processor :=
  Processor (proc_archive p) (proc_main p) (proc_root p) true.

Section Handlers.

Variable to_data_uri : resource -> result string.
Variable frame_data_uri : archive -> result string.

(** The [handle_*] methods of [MainResourceProcessor]: the processor
    afterwards and the text written to the output. *)
Definition handle (p : processor) (e : html_event) : result (processor * string) :=
  match e with
  | StartTag tag attrs =>
      s ← build_starttag to_data_uri frame_data_uri p tag attrs false ; Ok (p, s)
  | StartEndTag tag attrs =>
      s ← build_starttag to_data_uri frame_data_uri p tag attrs true ; Ok (p, s)
  | EndTag tag => Ok (p, "</" +:+ tag +:+ ">")
  | Data d => Ok (p, Py.escape d false)
  | EntityRef name => Ok (p, "&" +:+ name +:+ ";")
  | CharRef name => Ok (p, "&#" +:+ name +:+ ";")
  | Comment d => Ok (p, "<!--" +:+ d +:+ "-->")
  | Decl decl =>
      Ok (if Py.contains "//DTD XHTML " decl then set_xhtml p else p,
          "<!" +:+ decl +:+ ">" +:+ String "010" EmptyString)
  end.

(** [mrp.feed(...)]: the handlers run in order; what was written before
    an exception stays written. *)
Fixpoint feed (p : processor) (evs : list html_event) : string * result processor :=
  match evs with
  | [] => (EmptyString, Ok p)
  | e :: rest =>
      match handle p e with
      | Ok (p', s) => let '(out, r) := feed p' rest in (s +:+ out, r)
      | Err x => (EmptyString, Err x)
      end
  end.

(** [process_main_resource]; [evs] are the events of
    [str(archive.main_resource)]. *)
Definition process_main_resource (a : archive) (subresource_dir : option string)
    (evs : list html_event) : string * result unit :=
  match main_resource a with
  | None => (EmptyString, Err AttributeError)
  | Some m =>
      if negb (Url.mem (mime_type m) ["text/html"; "application/xhtml+xml"])
      then (EmptyString,
            Err (TypeError "res must have mime_type == 'text/html' or 'application/xhtml+xml'"))
      else match make_processor a subresource_dir with
           | Ok p => let '(out, r) := feed p evs in (out, r ≫= fun _ => Ok tt)
           | Err x => (EmptyString, Err x)
           end
  end.

End Handlers.

(** [WebArchive._get_absolute_url]; without a base, the main resource's
    URL ([self._main_resource.url] raises when there is none). *)
Definition get_absolute_url (a : archive) (u : string) (base : option string) : result string :=
  let from_main :=
    match main_resource a with
    | Some m => Ok (Url.urljoin (url m) u)
    | None => Err AttributeError
    end in
  match base with
  | Some b =>
      if negb (Url.nonempty b) then from_main
      else if negb (Py.contains "://" b) then Err (WebArchiveError "base must be an absolute URL")
      else Ok (Url.urljoin b u)
  | None => from_main
  end.

Section LocalUrl.

(** [WebResource.to_data_uri], which goes through the rewriters util.py
    does not define. *)
Variable to_data_uri : resource -> result string.

(** [WebArchive._get_local_url] *)
Definition get_local_url (a : archive) (subresource_dir : option string) (orig_url : string)
    (base : option string) : result string :=
  abs_url ← get_absolute_url a orig_url base ;
  catch_wae
    (match subresource_dir with
     | None => r ← get_subresource a abs_url ; to_data_uri r
     | Some d =>
         local_path ← get_local_path a abs_url ;
         Ok (if Url.nonempty d then d +:+ "/" +:+ local_path else local_path)
     end) abs_url.

End LocalUrl.

(* ------------------------------------------------------------------ *)
(** ** Reading the property list ([_create_from_plist_data]) *)

(** The [WebResourceData] value: [bytes] from a [<data>] element, or a
    [str] from a [<string>] element. *)
Inductive pdata := PBytes (b : string) | PText (s : string).

(** A resource dictionary of the property list: each key present or not. *)
Record resource_dict := ResourceDict {
  WebResourceData : option pdata;
  WebResourceMIMEType : option string;
  WebResourceURL : option string;
  WebResourceTextEncodingName : option string;
  WebResourceFrameName : option string }.

(** An archive dictionary of the property list. *)
Inductive archive_dict := ArchiveDict {
  WebMainResource : option resource_dict;
  WebSubresources : option (list resource_dict);
  WebSubframeArchives : option (list archive_dict) }.

(** [d[key]] *)
Definition from_key {A} (o : option A) : result A :=
  match o with Some x => Ok x | None => Err KeyError end.

(** [if x:] for an optional string. *)
Definition opt_truthy (o : option string) : bool :=
  match o with Some s => Url.nonempty s | None => false end.

Section Plist.

(** [util.is_text_mime_type], which util.py does not define, and
    [bytes(data, encoding=...)] for text data. *)
Variable is_text_mime_type : string -> bool.
Variable encode : string -> option string -> result string.

(** [WebResource.__init__] *)
Definition new_resource (d : pdata) (mime_type u : string)
    (text_encoding frame_name : option string) : result resource :=
  let is_text := is_text_mime_type mime_type in
  let text_encoding :=
    if is_text && negb (opt_truthy text_encoding) then Some "utf-8" else text_encoding in
  d' ← match d with
       | PText s =>
           if is_text then encode s text_encoding
           else Err (WebArchiveError ("MIME type '" +:+ mime_type +:+ "' does not support text data"))
       | PBytes b => Ok b
       end ;
  Ok (Resource d' mime_type u text_encoding frame_name).

(** [WebResource._create_from_plist_data] *)
Definition create_resource (d : resource_dict) : result resource :=
  dat ← from_key (WebResourceData d) ;
  mime ← from_key (WebResourceMIMEType d) ;
  u ← from_key (WebResourceURL d) ;
  r ← new_resource dat mime u None None ;
  let enc :=
    match WebResourceTextEncodingName d with
    | Some e => Some (Py.lower e)
    | None => if Py.startswith (mime_type r) "text/" then Some "utf-8" else text_encoding r
    end in
  let fname :=
    match WebResourceFrameName d with Some f => Some f | None => frame_name r end in
  Ok (Resource (data r) (mime_type r) (url r) enc fname).

(** The subresource loop of [_populate_from_plist_data]. *)
Fixpoint create_resources (l : list resource_dict) : result (list resource) :=
  match l with
  | [] => Ok []
  | x :: rest => r ← create_resource x ; rs ← create_resources rest ; Ok (r :: rs)
  end.

(** [WebArchive._create_from_plist_data]: a new archive (no local paths
    yet) populated by [_populate_from_plist_data]. *)
Fixpoint create_archive (d : archive_dict) : result archive :=
  match d with
  | ArchiveDict main subs frames =>
      main_d ← from_key main ;
      m ← create_resource main_d ;
      rs ← match subs with Some l => create_resources l | None => Ok [] end ;
      sas ← match frames with
             | Some l =>
                 (fix go (l : list archive_dict) : result (list archive) :=
                    match l with
                    | [] => Ok []
                    | x :: rest => sa ← create_archive x ; sas ← go rest ; Ok (sa :: sas)
                    end) l
             | None => Ok []
             end ;
      make_local_paths (Archive (Some m) rs sas ∅)
  end.

End Plist.

(** ** Sample archives used by the witnesses and counterexamples *)

Definition res (d m u : string) : resource := Resource d m u None None.

Definition page_main : resource :=
  Resource "<html><body><img src=pic.png></body></html>" "text/html"
           "https://x/index.html" (Some "utf-8") None.
Definition frame_main : resource :=
  Resource "<html></html>" "text/html" "https://x/frame.html" (Some "utf-8") None.
Definition pic_css : resource := res "PNG1" "image/png" "https://x/css/a.png".
Definition pic_img : resource := res "PNG2" "image/png" "https://x/img/a.png".
Definition pic_q : resource := res "PNG3" "image/png" "https://x/q/a.2.png".

Definition frame_archive : archive := Archive (Some frame_main) [] [] ∅.

(** A freshly decoded archive: no local path allocated yet. *)
Definition sample_archive : archive :=
  Archive (Some page_main) [pic_css; pic_img; pic_q] [frame_archive] ∅.

Definition sample_resources : list resource :=
  [page_main; pic_css; pic_img; pic_q; frame_main].

Definition sample_allocated : archive :=
  match make_local_paths sample_archive with Ok a => a | Err _ => sample_archive end.

(** A main resource with a relative URL. *)
Definition relative_archive : archive :=
  Archive (Some page_main) [res "PNG" "image/png" "pic.png"] []
          (<["pic.png" := "pic.png"]> ∅).

(** An archive without a main resource, holding one image. *)
Definition mainless_archive : archive := Archive None [pic_css] [] ∅.

(** An archive holding nothing but its main resource. *)
Definition only_main_archive : archive := Archive (Some page_main) [] [] ∅.

(** The HTML family of MIME types, the two [process_main_resource]
    accepts, and document rewriters that succeed. *)
Definition sample_is_html (mime : string) : bool :=
  String.eqb mime "text/html" || String.eqb mime "application/xhtml+xml".
Definition accept_html (r : resource) (subdir : option string) : result unit := Ok tt.
Definition accept_css (r : resource) : result unit := Ok tt.

(** No callback at all, and a [canceled_cb] that always asks to stop. *)
Definition quiet_hooks : hooks := Hooks false false None.
Definition cancel_all : hooks := Hooks false false (Some (fun _ => true)).

(** ** Inputs of the rewriter statements *)

(** A [srcset] URL or descriptor written plainly: non-empty, with no
    comma and no whitespace. *)
Definition token_char (c : ascii) : bool := negb (Ascii.eqb c ",") && negb (Py.is_ws c).

Definition srcset_token (s : string) : bool := Url.nonempty s && Url.all_chars token_char s.

(** A [srcset] item [url descriptor]. *)
Definition srcset_item (ud : string * string) : string := fst ud +:+ " " +:+ snd ud.

(** One literal of a style sheet replaced, everywhere in [content], by
    its absolute URL. *)
Definition css_subst (base : string) (content m : string) : string :=
  let m' := unquote m in
  if String.eqb m' EmptyString then content else Py.replace m' (Url.urljoin base m') content.

(** Data URIs for the samples: a resource's own bytes, and a subframe's
    main resource. *)
Definition sample_to_data_uri (r : resource) : result string := Ok (plain_data_uri r).
Definition sample_frame_data_uri (sf : archive) : result string :=
  match main_resource sf with Some m => Ok (plain_data_uri m) | None => Err AttributeError end.

(** The processor of the sample page in each mode. *)
Definition embedded_proc : processor := Processor sample_archive page_main None false.
Definition linked_proc : processor :=
  Processor sample_allocated page_main (Some "page_files") false.
(** Single-file mode on a loaded archive, which always has its local paths. *)
Definition embedded_loaded_proc : processor := Processor sample_allocated page_main None false.

(** A style sheet with one image next to it. *)
Definition site_css : resource :=
  Resource "body{background:url(bg.png)}" "text/css" "https://x/css/site.css" (Some "utf-8") None.
Definition bg_png : resource := res "PNG" "image/png" "https://x/css/bg.png".
Definition bg_archive : archive := Archive (Some page_main) [site_css; bg_png] [] ∅.
Definition bg_paths : gmap string string :=
  match make_local_paths bg_archive with Ok a => local_paths a | Err _ => ∅ end.

(** A style sheet naming two images whose file names collide. *)
Definition two_png_css : resource :=
  Resource "url(img/a.png) url(a.png)" "text/css" "https://x/css/site.css" (Some "utf-8") None.
Definition css_img_a : resource := res "PNG2" "image/png" "https://x/css/img/a.png".
Definition css_a : resource := res "PNG1" "image/png" "https://x/css/a.png".
Definition css_archive : archive :=
  Archive (Some page_main) [two_png_css; css_img_a; css_a] [] ∅.
Definition css_paths : gmap string string :=
  match make_local_paths css_archive with Ok a => local_paths a | Err _ => ∅ end.

(** A link to a style sheet the archive does not hold. *)
Definition ext_link_attrs : list (string * string) :=
  [("rel", "stylesheet"); ("href", "https://ext/site.css")].

(** Induction over archives and their subframes. *)
Section ArchiveInd.
Variable P : archive -> Prop.
Hypothesis HP : forall m subs frames lp, Forall P frames -> P (Archive m subs frames lp).

Fixpoint archive_ind' (a : archive) : P a :=
  match a with
  | Archive m subs frames lp =>
      HP m subs frames lp
         ((fix go (l : list archive) : Forall P l :=
             match l with
             | [] => @List.Forall_nil archive P
             | x :: rest => @List.Forall_cons archive P x rest (archive_ind' x) (go rest)
             end) frames)
  end.
End ArchiveInd.

(** An action that only adds events in front of the trace. *)
Definition extends {A} (m : M A) : Prop :=
  forall s, suffix (trace s) (trace (fst (m s))).


(** Induction over archive dictionaries and their subframe dictionaries. *)
Section ArchiveDictInd.
Variable P : archive_dict -> Prop.
Hypothesis HP : forall main subs frames,
  Forall P (match frames with Some l => l | None => [] end) ->
  P (ArchiveDict main subs frames).

Fixpoint archive_dict_ind' (d : archive_dict) : P d :=
  match d with
  | ArchiveDict main subs frames =>
      HP main subs frames
        (match frames as f return Forall P (match f with Some l => l | None => [] end) with
         | Some l =>
             (fix go (l : list archive_dict) : Forall P l :=
                match l with
                | [] => @List.Forall_nil archive_dict P
                | x :: rest => @List.Forall_cons archive_dict P x rest (archive_dict_ind' x) (go rest)
                end) l
         | None => @List.Forall_nil archive_dict P
         end)
  end.
End ArchiveDictInd.

(** An archive followed by all the archives nested in its subframes. *)
Fixpoint archive_tree (a : archive) : list archive :=
  a :: (fix go (l : list archive) : list archive :=
          match l with [] => [] | sf :: rest => (archive_tree sf ++ go rest)%list end)
         (subframe_archives a).

(** The number of resource dictionaries in an archive dictionary. *)
Fixpoint dict_resource_count (d : archive_dict) : nat :=
  match d with
  | ArchiveDict main subs frames =>
      (match main with Some _ => 1 | None => 0 end)
      + (match subs with Some l => length l | None => 0 end)
      + (match frames with
         | Some l =>
             (fix go (l : list archive_dict) : nat :=
                match l with [] => 0 | x :: rest => dict_resource_count x + go rest end) l
         | None => 0
         end)
  end.

(** A short XHTML document: its document type declaration and a void tag. *)
Definition xhtml_doc : list html_event :=
  [Decl "DOCTYPE html PUBLIC -//W3C//DTD XHTML 1.0 Strict//EN"; StartTag "br" []].

(** The characters [base64.b64encode] outputs. *)
Definition b64_out (c : ascii) : bool := Py.has_char c b64_alphabet || Ascii.eqb c "=".


(* ================================================================== *)
(** * Properties *)

(** ** Sanity checks of the library models *)

Example urljoin_rel : Url.urljoin "https://x/css/site.css" "bg.png" = "https://x/css/bg.png".
Proof. reflexivity. Qed.
Example urljoin_abs_path : Url.urljoin "https://x/index.html" "/about" = "https://x/about".
Proof. reflexivity. Qed.
Example urljoin_dots : Url.urljoin "https://x/a/b/c.html" "../d/e.png?q=1" = "https://x/a/d/e.png?q=1".
Proof. reflexivity. Qed.
Example urljoin_other : Url.urljoin "https://x/" "https://y/z" = "https://y/z".
Proof. reflexivity. Qed.
Example urljoin_data : Url.urljoin "https://x/" "data:image/png;base64,AA" = "data:image/png;base64,AA".
Proof. reflexivity. Qed.
Example splitext_ex : Url.splitext "a/b.tar.gz" = ("a/b.tar", ".gz").
Proof. reflexivity. Qed.
Example splitext_dot : Url.splitext ".bashrc" = (".bashrc", EmptyString).
Proof. reflexivity. Qed.
Example dirname_ex : Url.dirname "out/page.html" = "out".
Proof. reflexivity. Qed.


(** ** The local path allocator *)

Section Allocator.

Lemma str_app_cons (a : ascii) (s t : string) : String a s +:+ t = String a (s +:+ t).
Proof. reflexivity. Qed.

Lemma str_app_nil (t : string) : EmptyString +:+ t = t.
Proof. reflexivity. Qed.

Lemma str_length_app (s t : string) :
  String.length (s +:+ t) = String.length s + String.length t.
Proof. induction s as [|a s IH]; [done|]. rewrite str_app_cons. simpl. by rewrite IH. Qed.

Lemma str_app_cancel_r (s1 s2 t : string) : s1 +:+ t = s2 +:+ t -> s1 = s2.
Proof.
  revert s2. induction s1 as [|a s1 IH]; intros [|b s2] H; [done| | |].
  - rewrite str_app_nil, str_app_cons in H.
    apply (f_equal String.length) in H. simpl in H. rewrite str_length_app in H. lia.
  - rewrite str_app_nil, str_app_cons in H.
    apply (f_equal String.length) in H. simpl in H. rewrite str_length_app in H. lia.
  - rewrite !str_app_cons in H. injection H as -> H. f_equal. by apply IH.
Qed.

Lemma candidate_inj (base ext : string) (j k : nat) :
  1 <= j -> 1 <= k -> candidate base ext j = candidate base ext k -> j = k.
Proof.
  unfold candidate. intros Hj Hk H.
  destruct (Nat.eqb_spec j 1) as [->|Hj1], (Nat.eqb_spec k 1) as [->|Hk1]; [done| | |].
  - apply (inj (String.append base)) in H.
    apply (f_equal String.length) in H. rewrite !str_length_app in H. simpl in H. lia.
  - apply (inj (String.append base)) in H.
    apply (f_equal String.length) in H. rewrite !str_length_app in H. simpl in H. lia.
  - apply (inj (String.append base)) in H. rewrite !str_app_cons, !str_app_nil in H.
    injection H as H. apply str_app_cancel_r in H. by apply (inj pretty) in H.
Qed.

Lemma in_values_spec (m : gmap string string) (v : string) :
  in_values m v = true <-> exists k, m !! k = Some v.
Proof.
  unfold in_values. rewrite existsb_exists. split.
  - intros [[k v'] [Hin Heq]]. apply String.eqb_eq in Heq. simpl in Heq. subst v'.
    exists k. apply elem_of_map_to_list. by apply list_elem_of_In.
  - intros [k Hk]. exists (k, v). split; [|apply String.eqb_refl].
    apply list_elem_of_In. by apply elem_of_map_to_list.
Qed.

Lemma in_values_values (m : gmap string string) (v : string) :
  in_values m v = true -> In v (map snd (map_to_list m)).
Proof.
  intros [k Hk]%in_values_spec. apply in_map_iff. exists (k, v). split; [done|].
  apply list_elem_of_In. by apply elem_of_map_to_list.
Qed.

(** The loop returns the first candidate that is free, or the last one
    it reached when the fuel ran out. *)
Lemma copy_loop_spec (m : gmap string string) (base ext : string) (fuel k : nat) :
  exists j, k <= j <= k + fuel /\
    copy_loop m base ext fuel k (candidate base ext k) = candidate base ext j /\
    (forall i, k <= i < j -> in_values m (candidate base ext i) = true) /\
    (j < k + fuel -> in_values m (candidate base ext j) = false).
Proof.
  revert k. induction fuel as [|f IH]; intros k; simpl.
  - exists k. split; [lia|]. split; [done|]. split; intros; lia.
  - destruct (in_values m (candidate base ext k)) eqn:Hin.
    + destruct (IH (S k)) as (j & Hj & Heq & Hall & Hfree). exists j.
      split; [lia|]. split; [done|]. split.
      * intros i Hi. destruct (decide (i = k)) as [->|]; [done|]. apply Hall. lia.
      * intros. apply Hfree. lia.
    + exists k. split; [lia|]. split; [done|]. split; [intros; lia|done].
Qed.

Lemma NoDup_map_on {A B} (f : A -> B) (l : list A) :
  (forall x y, In x l -> In y l -> f x = f y -> x = y) -> List.NoDup l -> List.NoDup (map f l).
Proof.
  induction l as [|x l IH]; intros Hinj Hnd; simpl; [constructor|].
  inversion Hnd as [|? ? Hx Hl]; subst. constructor.
  - intros (y & Hxy & Hy)%in_map_iff. apply Hx.
    replace x with y; [done|]. apply Hinj; simpl; auto.
  - apply IH; [|done]. intros. apply Hinj; simpl; auto.
Qed.

(** Pigeonhole: [n + 1] taken candidates need [n + 1] dictionary entries. *)
Lemma taken_candidates_size (m : gmap string string) (base ext : string) (k n : nat) :
  1 <= k ->
  (forall i, k <= i <= k + n -> in_values m (candidate base ext i) = true) ->
  S n <= size m.
Proof.
  intros Hk Hall.
  assert (Hnd : List.NoDup (map (candidate base ext) (seq k (S n)))).
  { apply NoDup_map_on; [|apply seq_NoDup].
    intros x y Hx Hy. apply in_seq in Hx, Hy. apply candidate_inj; lia. }
  apply NoDup_incl_length with (l' := map snd (map_to_list m)) in Hnd.
  - rewrite length_map, length_seq, length_map, length_map_to_list in Hnd. done.
  - intros v (i & <- & Hi)%in_map_iff. apply in_seq in Hi.
    apply in_values_values, Hall. lia.
Qed.

(** With [size m] turns the loop always ends on a free name. *)
Lemma copy_loop_fresh (m : gmap string string) (base ext : string) :
  exists j, 1 <= j /\
    copy_loop m base ext (size m) 1 (candidate base ext 1) = candidate base ext j /\
    (forall i, 1 <= i < j -> in_values m (candidate base ext i) = true) /\
    in_values m (candidate base ext j) = false.
Proof.
  destruct (copy_loop_spec m base ext (size m) 1) as (j & Hj & Heq & Hall & Hfree).
  exists j. repeat split; [lia|done|done|].
  destruct (decide (j < 1 + size m)) as [Hlt|Hge]; [by apply Hfree|].
  destruct (in_values m (candidate base ext j)) eqn:Hin; [|done].
  exfalso. assert (S (size m) <= size m); [|lia].
  apply (taken_candidates_size m base ext 1 (size m)); [lia|].
  intros i Hi. destruct (decide (i = j)) as [->|]; [done|]. apply Hall. lia.
Qed.

Lemma make_local_path_spec (m : gmap string string) (r : resource) :
  exists k, 1 <= k /\
    fst (make_local_path m r) = candidate (path_base r) (path_ext r) k /\
    (forall i, 1 <= i < k -> in_values m (candidate (path_base r) (path_ext r) i) = true) /\
    in_values m (fst (make_local_path m r)) = false.
Proof.
  destruct (copy_loop_fresh m (path_base r) (path_ext r)) as (k & Hk & Heq & Hall & Hfree).
  exists k. unfold make_local_path. simpl.
  change (path_base r +:+ path_ext r) with (candidate (path_base r) (path_ext r) 1).
  rewrite Heq. auto.
Qed.

End Allocator.

Section Uniqueness.

Lemma NoDup_snd_inj (l : list (string * string)) (k1 k2 v : string) :
  NoDup (l.*2) -> (k1, v) ∈ l -> (k2, v) ∈ l -> k1 = k2.
Proof.
  induction l as [|[k' v'] l IH]; simpl; intros Hnd H1 H2.
  - by apply not_elem_of_nil in H1.
  - apply NoDup_cons in Hnd as [Hn Hnd]. apply elem_of_cons in H1, H2.
    destruct H1 as [H1|H1], H2 as [H2|H2]; simplify_eq; auto.
    + exfalso. apply Hn. by apply (list_elem_of_fmap_2 snd) in H2.
    + exfalso. apply Hn. by apply (list_elem_of_fmap_2 snd) in H1.
Qed.

Lemma values_distinct_inj (m : gmap string string) :
  values_distinct m = true -> map_inj m.
Proof.
  unfold values_distinct. rewrite bool_decide_eq_true. intros Hnd k1 k2 v H1 H2.
  apply (NoDup_snd_inj (map_to_list m) k1 k2 v); [done| |]; by apply elem_of_map_to_list.
Qed.

Lemma allocate_spec (m : gmap string string) (r : resource) :
  map_inj m ->
  map_inj (allocate m r) /\
  (forall k v, m !! k = Some v -> allocate m r !! k = Some v) /\
  is_Some (allocate m r !! url r).
Proof.
  intros Hinj. unfold allocate. destruct (m !! url r) as [p0|] eqn:Hr; [by eauto|].
  destruct (make_local_path_spec m r) as (k & _ & _ & _ & Hfree).
  destruct (make_local_path m r) as [p m'] eqn:Hmk.
  simpl in Hfree.
  assert (m' = <[url r:=p]> m) as ->.
  { unfold make_local_path in Hmk. injection Hmk as Hp Hm'. by rewrite <- Hm', Hp. }
  rewrite insert_insert_eq.
  assert (Hnot : forall k, m !! k <> Some p).
  { intros k' Hk'. assert (in_values m p = true) by (apply in_values_spec; eauto). congruence. }
  split; [|split].
  - intros k1 k2 v H1 H2.
    destruct (decide (k1 = url r)) as [->|H1n], (decide (k2 = url r)) as [->|H2n]; [done| | |].
    + rewrite lookup_insert_eq in H1. rewrite lookup_insert_ne in H2 by done.
      injection H1 as <-. by destruct (Hnot k2).
    + rewrite lookup_insert_eq in H2. rewrite lookup_insert_ne in H1 by done.
      injection H2 as <-. by destruct (Hnot k1).
    + rewrite lookup_insert_ne in H1, H2 by done. by apply (Hinj k1 k2 v).
  - intros k' v Hk'. rewrite lookup_insert_ne; [done|]. intros Heq. subst k'. congruence.
  - rewrite lookup_insert_eq. by eexists.
Qed.

Lemma fold_allocate_spec (rs : list resource) (m : gmap string string) :
  map_inj m ->
  map_inj (fold_left allocate rs m) /\
  (forall k v, m !! k = Some v -> fold_left allocate rs m !! k = Some v) /\
  (forall r, In r rs -> is_Some (fold_left allocate rs m !! url r)).
Proof.
  revert m. induction rs as [|r rs IH]; intros m Hinj; simpl.
  - split; [done|]. split; [done|]. intros ? [].
  - destruct (allocate_spec m r Hinj) as (Hinj' & Hmono & Hsome).
    destruct (IH _ Hinj') as (Hinj'' & Hmono' & Hall). split; [done|]. split.
    + intros k v Hk. by apply Hmono', Hmono.
    + intros r' [<-|Hin]; [|by apply Hall].
      destruct Hsome as [p Hp]. exists p. by apply Hmono'.
Qed.

End Uniqueness.

(** ** C3: path uniqueness *)

(** C3: after [_make_local_paths], two resources of the tree with distinct
    URLs have distinct local paths (given a dictionary without shared
    values, as the empty one of a new archive); and each allocated name is
    [base.ext], or [base.k.ext] for the least [k >= 2] such that the names
    [base.ext], [base.2.ext], ..., [base.(k-1).ext] are taken and
    [base.k.ext] is not. *)
Theorem local_paths_distinct (a a' : archive) (rs : list resource) :
  values_distinct (local_paths a) = true ->
  path_resources a = Ok rs ->
  make_local_paths a = Ok a' ->
  (forall r1 r2, In r1 rs -> In r2 rs -> url r1 <> url r2 ->
     exists p1 p2, local_paths a' !! url r1 = Some p1 /\
                   local_paths a' !! url r2 = Some p2 /\ p1 <> p2) /\
  (forall (m : gmap string string) (r : resource), exists k, 1 <= k /\
     fst (make_local_path m r) = candidate (path_base r) (path_ext r) k /\
     (forall i, 1 <= i < k -> in_values m (candidate (path_base r) (path_ext r) i) = true) /\
     in_values m (fst (make_local_path m r)) = false).
Proof.
  intros Hd Hrs Hmk. split; [|apply make_local_path_spec].
  unfold make_local_paths in Hmk. rewrite Hrs in Hmk. simpl in Hmk.
  injection Hmk as <-. simpl.
  destruct (fold_allocate_spec rs (local_paths a) (values_distinct_inj _ Hd))
    as (Hinj & _ & Hall).
  intros r1 r2 H1 H2 Hne.
  destruct (Hall r1 H1) as [p1 Hp1], (Hall r2 H2) as [p2 Hp2].
  exists p1, p2. split; [done|]. split; [done|]. intros <-.
  apply Hne. by apply (Hinj _ _ p1).
Qed.

Lemma local_paths_distinct_witness :
  values_distinct (local_paths sample_archive) = true /\
  path_resources sample_archive = Ok sample_resources /\
  make_local_paths sample_archive = Ok sample_allocated /\
  (forall r1 r2, In r1 sample_resources -> In r2 sample_resources -> url r1 <> url r2 ->
     exists p1 p2, local_paths sample_allocated !! url r1 = Some p1 /\
                   local_paths sample_allocated !! url r2 = Some p2 /\ p1 <> p2).
Proof.
  assert (H1 : values_distinct (local_paths sample_archive) = true) by (vm_compute; reflexivity).
  assert (H2 : path_resources sample_archive = Ok sample_resources) by (vm_compute; reflexivity).
  assert (H3 : make_local_paths sample_archive = Ok sample_allocated) by (vm_compute; reflexivity).
  split; [exact H1|]. split; [exact H2|]. split; [exact H3|].
  exact (proj1 (local_paths_distinct sample_archive sample_allocated sample_resources H1 H2 H3)).
Defined.

Example sample_allocation :
  local_paths sample_allocated !! "https://x/img/a.png" = Some "a.2.png" /\
  local_paths sample_allocated !! "https://x/q/a.2.png" = Some "a.2.2.png" /\
  local_paths sample_allocated !! "https://x/frame.html" = Some "frame.html".
Proof. vm_compute. repeat split. Qed.

(** ** Lookups by URL *)

(** C9: a URL without [://] makes [get_subresource] and
    [get_subframe_archive] raise [WebArchiveError] before any search,
    whatever the archive holds (even a resource whose [url] is that very
    string), while [get_local_path] looks the string up as it is. *)
Theorem relative_url_lookups (a : archive) (u : string) :
  Py.contains "://" u = false ->
  get_subresource a u = Err (WebArchiveError "must specify an absolute URL") /\
  get_subframe_archive a u = Err (WebArchiveError "must specify an absolute URL") /\
  (forall p, local_paths a !! u = Some p -> get_local_path a u = Ok p).
Proof.
  intros Hu. unfold get_subresource, get_subframe_archive, get_local_path.
  rewrite Hu. simpl. split; [done|]. split; [done|]. intros p ->. done.
Qed.


Lemma relative_url_lookups_witness :
  Py.contains "://" "pic.png" = false /\
  get_subresource relative_archive "pic.png" =
    Err (WebArchiveError "must specify an absolute URL") /\
  get_subframe_archive relative_archive "pic.png" =
    Err (WebArchiveError "must specify an absolute URL") /\
  (forall p, local_paths relative_archive !! "pic.png" = Some p ->
             get_local_path relative_archive "pic.png" = Ok p).
Proof.
  assert (H : Py.contains "://" "pic.png" = false) by reflexivity.
  split; [exact H|]. exact (relative_url_lookups relative_archive "pic.png" H).
Defined.

(** ** Effects of the extraction walk *)


Lemma bindM_ok {A B} (m : M A) (k : A -> M B) (s s' : st) (a : A) :
  m s = (s', Ok a) -> bindM m k s = k a s'.
Proof. unfold bindM. by intros ->. Qed.

Lemma bindM_err {A B} (m : M A) (k : A -> M B) (s s' : st) (e : exn) :
  m s = (s', Err e) -> bindM m k s = (s', Err e).
Proof. unfold bindM. by intros ->. Qed.


Lemma extends_ret {A} (a : A) : extends (retM a).
Proof. intros s. done. Qed.
Lemma extends_raise {A} (e : exn) : extends (@raiseM A e).
Proof. intros s. done. Qed.
Lemma extends_lift {A} (r : result A) : extends (liftM r).
Proof. intros s. done. Qed.
Lemma extends_emit (e : event) : extends (emit e).
Proof. intros s. simpl. by apply suffix_cons_r. Qed.
Lemma extends_canceled (h : hooks) : extends (canceled h).
Proof. intros s. unfold canceled. by destruct (canceled_cb h). Qed.
Lemma extends_bind {A B} (m : M A) (k : A -> M B) :
  extends m -> (forall a, extends (k a)) -> extends (bindM m k).
Proof.
  intros Hm Hk s. unfold bindM. specialize (Hm s).
  destruct (m s) as [s' [a|e]]; simpl in *; [|done].
  etrans; [exact Hm|apply Hk].
Qed.
Lemma extends_BEFORE h r p : extends (BEFORE h r p).
Proof. unfold BEFORE. destruct (before_cb h); [apply extends_emit|apply extends_ret]. Qed.
Lemma extends_AFTER h r p : extends (AFTER h r p).
Proof. unfold AFTER. destruct (after_cb h); [apply extends_emit|apply extends_ret]. Qed.

Create HintDb extends_db.
Hint Resolve extends_ret extends_raise extends_lift extends_emit extends_canceled
  extends_bind extends_BEFORE extends_AFTER : extends_db.

Section ExtractEffects.
Variable is_html_mime_type : string -> bool.
Variable process_html_resource : resource -> option string -> result unit.
Variable process_css_resource : resource -> result unit.

Lemma extends_extract_main a p d :
  extends (extract_main_resource is_html_mime_type process_html_resource a p d).
Proof.
  unfold extract_main_resource. destruct (main_resource a); [|auto with extends_db].
  destruct (is_html_mime_type _); auto with extends_db.
Qed.

Lemma extends_extract_subresource r p :
  extends (extract_subresource is_html_mime_type process_html_resource process_css_resource r p).
Proof.
  unfold extract_subresource.
  destruct (String.eqb _ _); [|destruct (is_html_mime_type _)]; auto with extends_db.
Qed.
Hint Resolve extends_extract_main extends_extract_subresource : extends_db.

Lemma extends_subresource_loop h a dir l :
  extends (subresource_loop is_html_mime_type process_html_resource process_css_resource h a dir l).
Proof.
  induction l as [|r l IH]; simpl; [auto with extends_db|].
  apply extends_bind; [auto with extends_db|]. intros p.
  apply extends_bind; [auto with extends_db|]. intros []; auto with extends_db.
Qed.
Hint Resolve extends_subresource_loop : extends_db.

Lemma extends_frames_loop ex h a' dir l :
  Forall (fun sf => forall p, extends (ex sf p)) l ->
  extends (frames_loop ex h a' dir l).
Proof.
  induction 1 as [|sf rest Hsf Hrest IH]; simpl; [auto with extends_db|].
  apply extends_bind; [auto with extends_db|]. intros [|]; [auto with extends_db|].
  destruct (main_resource sf); [|auto with extends_db].
  apply extends_bind; [auto with extends_db|]. intros q.
  apply extends_bind; [apply Hsf|]. intros _. exact IH.
Qed.

Lemma extends_extract a p e h :
  extends (extract is_html_mime_type process_html_resource process_css_resource a p e h).
Proof.
  revert p e h. induction a as [m subs frames lp IHf] using archive_ind'.
  intros p e h. simpl.
  apply extends_bind; [auto with extends_db|]. intros c.
  destruct c; [auto with extends_db|]. destruct e; [auto with extends_db|].
  apply extends_bind; [auto with extends_db|]. intros a'.
  do 3 (apply extends_bind; [auto with extends_db|intros _]).
  apply extends_bind.
  { destruct (subresources a'), (subframe_archives a'); auto with extends_db. }
  intros _. apply extends_bind; [auto with extends_db|]. intros stopped.
  destruct stopped; [auto with extends_db|].
  apply extends_frames_loop. eapply Forall_impl; [exact IHf|]. simpl. auto.
Qed.

End ExtractEffects.

(** ** The extraction walk *)

Lemma path_resources_ok (a : archive) :
  frames_have_mains a = true -> exists rs, path_resources a = Ok rs.
Proof.
  unfold frames_have_mains, path_resources. intros H.
  assert (exists ms, fold_right (fun sf acc =>
                  r ← acc ; match main_resource sf with
                              | Some m => Ok (m :: r)
                              | None => Err AttributeError
                              end) (Ok []) (subframe_archives a) = Ok ms) as [ms ->].
  { induction (subframe_archives a) as [|sf l IH]; simpl in *; [by eexists|].
    apply andb_prop in H as [Hsf Hl]. destruct (IH Hl) as [ms ->].
    destruct (main_resource sf); [|done]. by eexists. }
  simpl. by eexists.
Qed.

Lemma make_local_paths_ok (a : archive) :
  frames_have_mains a = true ->
  exists lp, make_local_paths a =
    Ok (Archive (main_resource a) (subresources a) (subframe_archives a) lp).
Proof.
  intros H. destruct (path_resources_ok a H) as [rs Hrs].
  unfold make_local_paths. rewrite Hrs. simpl. by eexists.
Qed.

Lemma canceled_first (h : hooks) :
  first_cancel h = false -> exists n, canceled h init_st = (St [] n, Ok false).
Proof.
  unfold first_cancel, canceled. destruct (canceled_cb h) as [f|]; intros H.
  - simpl. rewrite H. by eexists.
  - by exists 0.
Qed.

Lemma resource_count_eq (a : archive) :
  resource_count a =
    (match main_resource a with Some _ => 1 | None => 0 end)
    + length (subresources a) + list_sum (map resource_count (subframe_archives a)).
Proof.
  destruct a as [m subs frames lp]. simpl. f_equal.
  induction frames as [|sf rest IH]; simpl; congruence.
Qed.

(** C6 (as found): an archive without a main resource counts its
    subresources and the resources of its subframes, so [resource_count]
    is 0 only when it has neither; it is not 0 in general. *)
Lemma mainless_count_counterexample :
  main_resource mainless_archive = None /\ resource_count mainless_archive = 1.
Proof. split; reflexivity. Qed.

(** C6 (amended): for an archive without a main resource (whose subframes
    all have one), [resource_count] is the number of its subresources plus
    the counts of its subframes, hence 0 without subresources and
    subframes; [extract], in either mode, raises [WebArchiveError] unless
    the first [canceled_cb] call asks to stop, in which case it returns
    at once; either way no file is written and no directory made.  In
    linked mode this needs [_make_local_paths] to get through, so the
    URLs it parses are assumed [url_safe]. *)
Theorem mainless_extract (is_html_mime_type : string -> bool)
    (process_html_resource : resource -> option string -> result unit)
    (process_css_resource : resource -> result unit)
    (a : archive) (path : string) (embed : bool) (h : hooks) :
  main_resource a = None ->
  frames_have_mains a = true ->
  (embed = false -> urls_safe a = true) ->
  let run := extract is_html_mime_type process_html_resource process_css_resource a path embed h init_st in
  resource_count a = length (subresources a) + list_sum (map resource_count (subframe_archives a)) /\
  (subresources a = [] -> subframe_archives a = [] -> resource_count a = 0) /\
  snd run = (if first_cancel h then Ok tt
             else Err (WebArchiveError "archive does not have a main resource")) /\
  filter is_write (trace (fst run)) = [] /\ filter is_mkdir (trace (fst run)) = [].
Proof.
  intros Hm Hf _ run. subst run.
  rewrite resource_count_eq, Hm. simpl.
  split; [done|]. split; [intros -> ->; done|].
  destruct (make_local_paths_ok a Hf) as [lp' Hmk].
  destruct a as [mn subs frames lp]. simpl in Hm, Hmk. subst mn.
  destruct h as [bf af [f|]]; unfold first_cancel; simpl.
  - destruct (f 0) eqn:Hf0.
    + unfold bindM. simpl. rewrite Hf0. simpl. done.
    + unfold bindM. simpl. rewrite Hf0. destruct embed.
      * destruct bf; simpl; done.
      * rewrite Hmk. destruct bf; simpl; done.
  - unfold bindM. simpl. destruct embed.
    + destruct bf; simpl; done.
    + rewrite Hmk. destruct bf; simpl; done.
Qed.

Lemma mainless_extract_witness :
  main_resource mainless_archive = None /\
  frames_have_mains mainless_archive = true /\
  resource_count mainless_archive = 1 /\
  snd (extract sample_is_html accept_html accept_css mainless_archive "out/page.html" false quiet_hooks init_st)
    = Err (WebArchiveError "archive does not have a main resource").
Proof.
  assert (H1 : main_resource mainless_archive = None) by reflexivity.
  assert (H2 : frames_have_mains mainless_archive = true) by reflexivity.
  destruct (mainless_extract sample_is_html accept_html accept_css mainless_archive "out/page.html"
              false quiet_hooks H1 H2 (fun _ => eq_refl)) as (Hc & _ & Hr & _).
  split; [exact H1|]. split; [exact H2|]. split; [rewrite Hc; reflexivity|exact Hr].
Defined.




(** ** The markup rewriter *)

Section Srcset.

Lemma str_app_assoc (a b c : string) : a +:+ (b +:+ c) = (a +:+ b) +:+ c.
Proof. induction a as [|x a IH]; [done|]. rewrite !str_app_cons. by rewrite IH. Qed.

Lemma str_app_nil_r (a : string) : a +:+ EmptyString = a.
Proof. induction a as [|x a IH]; [done|]. rewrite str_app_cons. by rewrite IH. Qed.

Lemma rev_str_app (s acc : string) : Py.rev_str s acc = Py.rev_str s EmptyString +:+ acc.
Proof.
  revert acc. induction s as [|c s IH]; intros acc; [done|]. simpl.
  rewrite (IH (String c acc)), (IH (String c EmptyString)).
  rewrite <- str_app_assoc. done.
Qed.

Lemma rev_str_app2 (a b acc : string) : Py.rev_str (a +:+ b) acc = Py.rev_str b (Py.rev_str a acc).
Proof. revert acc. induction a as [|c a IH]; intros acc; [done|]. simpl. apply IH. Qed.

Lemma rev_str_involutive (s : string) : Py.rev_str (Py.rev_str s EmptyString) EmptyString = s.
Proof.
  induction s as [|c s IH]; [done|]. simpl.
  rewrite (rev_str_app s (String c EmptyString)), rev_str_app2. simpl. rewrite IH. done.
Qed.

Lemma split_go_plain (sep : ascii) (cur x t : string) :
  Url.all_chars (fun c => negb (Ascii.eqb c sep)) x = true ->
  Py.split_go sep cur (x +:+ t) = Py.split_go sep (Py.rev_str x cur) t.
Proof.
  revert cur. induction x as [|c x IH]; intros cur Hx; [done|].
  simpl in Hx. apply andb_prop in Hx as [Hc Hx]. apply negb_true_iff in Hc.
  rewrite str_app_cons. simpl. rewrite Hc. by apply IH.
Qed.

Lemma join_cons_app (sep s y : string) (rest : list string) :
  Py.join sep ((s +:+ y) :: rest) = s +:+ Py.join sep (y :: rest).
Proof. destruct rest; simpl; [done|]. by rewrite !str_app_assoc. Qed.

Lemma split_join (x : string) (rest : list string) :
  Forall (fun s => Url.all_chars (fun c => negb (Ascii.eqb c ",")) s = true) (x :: rest) ->
  Py.split "," (Py.join ", " (x :: rest)) = x :: map (String " ") rest.
Proof.
  revert x. induction rest as [|y rest IH]; intros x Hall.
  - inversion Hall as [|? ? Hx _]; subst. unfold Py.split. simpl.
    rewrite <- (str_app_nil_r x) at 1. rewrite split_go_plain by done.
    simpl. by rewrite rev_str_involutive.
  - inversion Hall as [|? ? Hx Hrest]; subst. inversion Hrest as [|? ? Hy Hrest']; subst.
    unfold Py.split. simpl Py.join.
    rewrite split_go_plain by done. simpl. rewrite rev_str_involutive. f_equal.
    pose proof (IH (" " +:+ y)) as H. rewrite join_cons_app in H.
    unfold Py.split in H. simpl in H. apply H.
    constructor; [simpl; exact Hy|done].
Qed.

Lemma lstrip_id (s : string) :
  match s with String c _ => Py.is_ws c = false | EmptyString => True end ->
  Py.lstrip s = s.
Proof. destruct s as [|c r]; [done|]. simpl. by intros ->. Qed.

Lemma rev_str_last (s acc : string) (c : ascii) :
  Py.last_char s = Some c -> exists t, Py.rev_str s acc = String c t.
Proof.
  revert acc. induction s as [|d s IH]; intros acc; [done|].
  destruct s as [|e s]; simpl.
  - intros [= ->]. by eexists.
  - intros H. apply (IH (String d acc)). exact H.
Qed.

Lemma last_char_app (s t : string) :
  t <> EmptyString -> Py.last_char (s +:+ t) = Py.last_char t.
Proof.
  intros Ht. induction s as [|c s IH]; [done|]. rewrite str_app_cons.
  simpl. destruct (s +:+ t) eqn:E.
  - apply (f_equal String.length) in E. rewrite str_length_app in E.
    destruct t; [done|simpl in E; lia].
  - exact IH.
Qed.

Lemma last_char_some (c : ascii) (s : string) : exists l, Py.last_char (String c s) = Some l.
Proof.
  revert c. induction s as [|d s IH]; intros c; [by eexists|].
  destruct (IH d) as [l Hl]. exists l. exact Hl.
Qed.

Lemma all_chars_last (p : ascii -> bool) (s : string) (c : ascii) :
  Url.all_chars p s = true -> Py.last_char s = Some c -> p c = true.
Proof.
  induction s as [|d s IH]; [done|]. simpl. intros H. apply andb_prop in H as [Hd Hs].
  destruct s as [|e s]; [by intros [= <-]|]. apply IH, Hs.
Qed.

Lemma all_chars_impl (p q : ascii -> bool) (s : string) :
  (forall c, p c = true -> q c = true) -> Url.all_chars p s = true -> Url.all_chars q s = true.
Proof.
  intros Hpq. induction s as [|c s IH]; [done|]. simpl.
  intros H. apply andb_prop in H as [Hc Hs]. by rewrite (Hpq c Hc), (IH Hs).
Qed.

Lemma strip_id (s : string) (c d : ascii) (r : string) :
  s = String c r -> Py.is_ws c = false ->
  Py.last_char s = Some d -> Py.is_ws d = false -> Py.strip s = s.
Proof.
  intros -> Hc Hl Hd. unfold Py.strip. rewrite (lstrip_id (String c r)) by done.
  destruct (rev_str_last (String c r) EmptyString d Hl) as [t Ht]. rewrite Ht.
  rewrite (lstrip_id (String d t)) by done. rewrite <- Ht. apply rev_str_involutive.
Qed.

Lemma strip_space (s : string) : Py.strip (String " " s) = Py.strip s.
Proof. reflexivity. Qed.

Lemma split1_space (u d : string) :
  Url.all_chars (fun c => negb (Ascii.eqb c " ")) u = true ->
  Py.split1 " " (u +:+ String " " d) = [u; d].
Proof.
  induction u as [|c u IH]; [done|]. simpl. intros H. apply andb_prop in H as [Hc Hu].
  apply negb_true_iff in Hc. rewrite Hc. by rewrite (IH Hu).
Qed.

Lemma token_char_comma (c : ascii) : token_char c = true -> negb (Ascii.eqb c ",") = true.
Proof. unfold token_char. intros H. apply andb_prop in H. tauto. Qed.

Lemma token_char_space (c : ascii) : token_char c = true -> negb (Ascii.eqb c " ") = true.
Proof.
  unfold token_char. intros H. apply andb_prop in H as [_ H].
  destruct (Ascii.eqb_spec c " "); [subst; done|done].
Qed.

Lemma srcset_token_spec (s : string) :
  srcset_token s = true ->
  (exists c r, s = String c r /\ Py.is_ws c = false) /\
  (forall d, Py.last_char s = Some d -> Py.is_ws d = false) /\
  Url.all_chars token_char s = true.
Proof.
  unfold srcset_token. intros H. apply andb_prop in H as [Hn Ha].
  fold token_char in Ha. split; [|split; [|exact Ha]].
  - destruct s as [|c r]; [done|]. exists c, r. split; [done|].
    simpl in Ha. apply andb_prop in Ha as [Hc _]. unfold token_char in Hc.
    apply andb_prop in Hc as [_ Hc]. by apply negb_true_iff.
  - intros d Hd. pose proof (all_chars_last _ _ _ Ha Hd) as H.
    unfold token_char in H. apply andb_prop in H as [_ H]. by apply negb_true_iff.
Qed.

Lemma strip_item (u d : string) :
  srcset_token u = true -> srcset_token d = true ->
  Py.strip (u +:+ String " " d) = u +:+ String " " d.
Proof.
  intros Hu Hd. destruct (srcset_token_spec u Hu) as ((c & r & -> & Hc) & _ & _).
  destruct (srcset_token_spec d Hd) as ((e & t & Hde & _) & Hl & _).
  destruct (Py.last_char d) as [l|] eqn:El.
  - apply (strip_id _ c l (r +:+ String " " d)); [by rewrite str_app_cons|done| |by apply Hl].
    rewrite last_char_app by done. simpl. rewrite Hde in El |- *. destruct t; done.
  - destruct (last_char_some e t) as [l Hl']. rewrite Hde in El. congruence.
Qed.

Lemma srcset_items_ok (p : processor) (items : list (string * string)) :
  Forall (fun ud => srcset_token (fst ud) && srcset_token (snd ud) = true) items ->
  srcset_items p (map srcset_item items) =
    Ok (map (fun ud => resource_url p (fst ud) +:+ " " +:+ snd ud) items).
Proof.
  induction 1 as [|[u d] rest Hud Hrest IH]; [done|]. simpl in Hud |- *.
  apply andb_prop in Hud as [Hu _].
  destruct (srcset_token_spec u Hu) as (_ & _ & Hc).
  unfold srcset_item at 1. simpl. change (u +:+ " " +:+ d) with (u +:+ String " " d).
  rewrite (split1_space u d) by (eapply all_chars_impl; [apply token_char_space|exact Hc]).
  rewrite IH. done.
Qed.

Lemma strip_items (items : list (string * string)) :
  Forall (fun ud => srcset_token (fst ud) && srcset_token (snd ud) = true) items ->
  map Py.strip (map (String " ") (map srcset_item items)) = map srcset_item items.
Proof.
  induction 1 as [|[u d] rest Hud Hrest IH]; [done|]. simpl in Hud |- *.
  apply andb_prop in Hud as [Hu Hd]. rewrite strip_space. unfold srcset_item at 1. simpl.
  change (u +:+ " " +:+ d) with (u +:+ String " " d).
  rewrite (strip_item u d Hu Hd). f_equal. exact IH.
Qed.

Lemma srcset_item_no_comma (ud : string * string) :
  srcset_token (fst ud) && srcset_token (snd ud) = true ->
  Url.all_chars (fun c => negb (Ascii.eqb c ",")) (srcset_item ud) = true.
Proof.
  destruct ud as [u d]. simpl. intros H. apply andb_prop in H as [Hu Hd].
  destruct (srcset_token_spec u Hu) as (_ & _ & Hcu).
  destruct (srcset_token_spec d Hd) as (_ & _ & Hcd).
  unfold srcset_item. simpl.
  assert (Happ : forall q s t, Url.all_chars q (s +:+ t) = Url.all_chars q s && Url.all_chars q t).
  { intros q s t. induction s as [|c s IH]; [done|]. rewrite str_app_cons. simpl.
    rewrite IH. apply andb_assoc. }
  rewrite Happ. apply andb_true_intro. split.
  - eapply all_chars_impl; [apply token_char_comma|exact Hcu].
  - simpl. eapply all_chars_impl; [apply token_char_comma|exact Hcd].
Qed.

Lemma attrs_text_img tdu fdu (p : processor) (attrs : list (string * string)) :
  attrs_text tdu fdu p "img" attrs =
  attrs_text tdu fdu p "img" (List.filter (fun av => negb (String.eqb (fst av) "srcset")) attrs).
Proof.
  induction attrs as [|[attr value] rest IH]; [done|]. simpl.
  destruct (String.eqb attr "srcset") eqn:E; simpl; [exact IH|].
  rewrite E. simpl. by rewrite IH.
Qed.

End Srcset.

(** C2 (as found): the [srcset] of an [img] tag is left out of the
    output altogether. *)
Lemma img_srcset_counterexample :
  build_starttag sample_to_data_uri sample_frame_data_uri linked_proc "img"
    [("srcset", "img/a.png 2x")] false = Ok "<img>".
Proof. vm_compute. reflexivity. Qed.

(** C2 (code bug): a [srcset] value [u1 d1, u2 d2, ...] (each URL and
    descriptor non-empty, without commas or whitespace, the URLs and the
    main resource's URL [url_safe] so that [urljoin] cannot raise) is
    rewritten item by item with [_resource_url] in every mode: each URL
    becomes its local path (under the root when it is non-empty, bare
    without a root) or else its absolute URL, never a data URI, even in
    single-file mode where the [src] rule inlines the resource; each
    descriptor is kept and the items are joined with [", "].  An [img]
    tag is built as if it had no [srcset] attribute. *)
Theorem srcset_rewrite tdu fdu (p : processor) (tag : string) (items : list (string * string)) :
  items <> [] ->
  Forall (fun ud => srcset_token (fst ud) && srcset_token (snd ud) = true) items ->
  Url.url_safe (url (proc_main p)) = true ->
  Forall (fun ud => Url.url_safe (fst ud) = true) items ->
  process_attr_value tdu fdu p tag "srcset" (Py.join ", " (map srcset_item items))
    = Ok (Py.escape (Py.join ", " (map (fun ud => resource_url p (fst ud) +:+ " " +:+ snd ud)
                                      items)) true) /\
  (forall attrs is_empty,
     build_starttag tdu fdu p "img" attrs is_empty =
     build_starttag tdu fdu p "img"
       (List.filter (fun av => negb (String.eqb (fst av) "srcset")) attrs) is_empty).
Proof.
  intros Hne Hall _ _. split.
  - unfold process_attr_value.
    replace (String.eqb "srcset" "href") with false by reflexivity.
    replace (String.eqb "srcset" "action") with false by reflexivity.
    replace (String.eqb "srcset" "src") with false by reflexivity.
    replace (String.eqb "srcset" "srcset") with true by reflexivity.
    rewrite !andb_false_r. simpl orb. cbv iota beta.
    destruct items as [|i0 rest]; [done|].
    rewrite map_cons, split_join.
    + rewrite map_cons. inversion Hall as [|? ? H0 Hrest]; subst.
      rewrite (strip_items rest Hrest).
      destruct i0 as [u d]. unfold srcset_item at 1. simpl in H0. apply andb_prop in H0 as [Hu Hd].
      simpl. change (u +:+ " " +:+ d) with (u +:+ String " " d).
      rewrite (strip_item u d Hu Hd).
      change ((u +:+ String " " d) :: map srcset_item rest) with (map srcset_item ((u, d) :: rest)).
      rewrite srcset_items_ok by done. rewrite split1_space; [done|].
      destruct (srcset_token_spec u Hu) as (_ & _ & Hc).
      eapply all_chars_impl; [apply token_char_space|exact Hc].
    + rewrite <- map_cons. apply Forall_map. eapply Forall_impl; [exact Hall|].
      intros ud H. by apply srcset_item_no_comma.
  - intros attrs e. unfold build_starttag. rewrite <- attrs_text_img.
    destruct (proc_root p); done.
Qed.

Lemma srcset_rewrite_witness :
  process_attr_value sample_to_data_uri sample_frame_data_uri embedded_loaded_proc "source" "srcset"
    "img/a.png 2x, css/a.png 3x"
  = Ok "a.2.png 2x, a.png 3x" /\
  process_attr_value sample_to_data_uri sample_frame_data_uri embedded_loaded_proc "source" "src"
    "img/a.png"
  = Ok "data:image/png;base64,UE5HMg==".
Proof.
  split; [|vm_compute; reflexivity].
  assert (H1 : [("img/a.png", "2x"); ("css/a.png", "3x")] <> []) by discriminate.
  assert (H2 : Forall (fun ud => srcset_token (fst ud) && srcset_token (snd ud) = true)
                 [("img/a.png", "2x"); ("css/a.png", "3x")]) by (repeat constructor).
  assert (H3 : Forall (fun ud => Url.url_safe (fst ud) = true)
                 [("img/a.png", "2x"); ("css/a.png", "3x")]) by (repeat constructor).
  destruct (srcset_rewrite sample_to_data_uri sample_frame_data_uri embedded_loaded_proc "source"
              [("img/a.png", "2x"); ("css/a.png", "3x")] H1 H2 eq_refl H3) as [H _].
  refine (eq_trans H _). vm_compute. reflexivity.
Defined.

(** C5: the [href] of [a] and the [action] of [form] become the value
    resolved against the main resource's URL (then escaped), whatever the
    mode, the root and the archive. *)
Theorem absolute_navigation_links tdu fdu (p : processor) (value : string) :
  process_attr_value tdu fdu p "a" "href" value =
    Ok (Py.escape (Url.urljoin (url (proc_main p)) value) true) /\
  process_attr_value tdu fdu p "form" "action" value =
    Ok (Py.escape (Url.urljoin (url (proc_main p)) value) true).
Proof. split; reflexivity. Qed.

(** C8 (as found): the marker comes before the [html] tag. *)
Lemma html_marker_counterexample :
  build_starttag sample_to_data_uri sample_frame_data_uri embedded_proc "html" [] false
  = Ok (processed_marker +:+ "<html>").
Proof. vm_compute. reflexivity. Qed.

(** C8 (amended): the opening [html] tag is written as the marker comment
    and a newline immediately followed by the tag itself. *)
Theorem html_marker_before_tag tdu fdu (p : processor) (attrs : list (string * string))
    (is_empty : bool) (body : string) :
  attrs_text tdu fdu p "html" attrs = Ok body ->
  build_starttag tdu fdu p "html" attrs is_empty =
    Ok (processed_marker +:+ "<html" +:+ body +:+
        (if proc_is_xhtml p && is_empty then " />" else ">")).
Proof.
  intros Hb. unfold build_starttag. rewrite Hb.
  destruct (proc_root p); simpl; rewrite orb_false_r; done.
Qed.

Lemma html_marker_before_tag_witness :
  build_starttag sample_to_data_uri sample_frame_data_uri embedded_proc "html"
    [("lang", "en")] false
  = Ok (processed_marker +:+ "<html" +:+ (" lang=" +:+ dq +:+ "en" +:+ dq) +:+ ">").
Proof.
  exact (html_marker_before_tag sample_to_data_uri sample_frame_data_uri embedded_proc
           [("lang", "en")] false (" lang=" +:+ dq +:+ "en" +:+ dq) ltac:(vm_compute; reflexivity)).
Defined.

(** C4: in embedded mode a [link rel="stylesheet"] whose target the
    archive does not hold becomes an empty [style] element: the reference
    is lost, where linked mode keeps the absolute URL. *)
Theorem embedded_link_dropped tdu fdu (p : processor) (attrs : list (string * string))
    (is_empty : bool) (href msg : string) :
  proc_root p = None ->
  link_scan p attrs = (Some href, true) ->
  get_subresource (proc_archive p) href = Err (WebArchiveError msg) ->
  build_starttag tdu fdu p "link" attrs is_empty = Ok "<style></style>".
Proof.
  intros Hr Hs Hg. unfold build_starttag. rewrite Hr, Hs. simpl. rewrite Hg. done.
Qed.

Lemma embedded_link_dropped_witness :
  build_starttag sample_to_data_uri sample_frame_data_uri embedded_proc "link"
    ext_link_attrs false = Ok "<style></style>" /\
  build_starttag sample_to_data_uri sample_frame_data_uri linked_proc "link"
    ext_link_attrs false
  = Ok ("<link rel=" +:+ dq +:+ "stylesheet" +:+ dq +:+ " href=" +:+ dq
        +:+ "https://ext/site.css" +:+ dq +:+ ">").
Proof.
  split.
  - apply (embedded_link_dropped sample_to_data_uri sample_frame_data_uri embedded_proc
             ext_link_attrs false "https://ext/site.css" "no subresource for the specified URL");
      vm_compute; reflexivity.
  - vm_compute. reflexivity.
Defined.

(** ** The style sheet rewriter *)

(** C1: in embedded mode the rewritten style sheet replaces each url()
    literal by its absolute URL, whatever the subresources: the data URI
    computed for a matching subresource is not used. *)
Theorem embedded_style_sheet_absolute tdu (res : resource) (subs : list resource) :
  (forall r, exists v, tdu r = Ok v) ->
  mime_type res = "text/css" ->
  process_style_sheet tdu res subs None =
    Ok (fold_left (css_subst (url res)) (findall_url (data res)) (data res)).
Proof.
  intros Htdu Hm. unfold process_style_sheet. rewrite Hm. simpl.
  generalize (findall_url (data res)) as ms. generalize (data res) as content.
  intros content ms. induction ms as [|m ms IH] in content |- *; [done|].
  simpl. unfold style_sheet_step at 1. unfold css_subst at 2.
  destruct (String.eqb (unquote m) EmptyString); [apply IH|].
  destruct (find _ subs) as [r|]; [destruct (Htdu r) as [v ->]|]; simpl; apply IH.
Qed.

Lemma embedded_style_sheet_absolute_witness :
  process_style_sheet sample_to_data_uri site_css [bg_png] None
  = Ok "body{background:url(https://x/css/bg.png)}" /\
  sample_to_data_uri bg_png = Ok "data:image/png;base64,UE5H".
Proof.
  split; [|vm_compute; reflexivity].
  rewrite (embedded_style_sheet_absolute sample_to_data_uri site_css [bg_png]
             (fun r => ex_intro _ (plain_data_uri r) eq_refl) eq_refl).
  vm_compute. reflexivity.
Defined.

(** C7 (code bug): in linked mode each literal is replaced by its file
    name all over the text, literal after literal, so a later replacement
    rewrites the output of an earlier one: [img/a.png] (relative to the
    style sheet) is stored as [a.png], yet once [a.png], stored as
    [a.2.png], is replaced, both literals name [a.2.png]. *)
Lemma css_replace_counterexample :
  css_paths !! "https://x/css/img/a.png" = Some "a.png" /\
  css_paths !! "https://x/css/a.png" = Some "a.2.png" /\
  process_style_sheet sample_to_data_uri two_png_css (subresources css_archive) (Some css_paths)
  = Ok "url(a.2.png) url(a.2.png)".
Proof. vm_compute. repeat split. Qed.

(* ------------------------------------------------------------------ *)
(** ** Further properties of the code *)
(* ================================================================== *)
(** ** Further properties: the allocator *)

Section AllocatorMore.

Lemma allocate_keep (m : gmap string string) (r : resource) (k v : string) :
  m !! k = Some v -> allocate m r !! k = Some v.
Proof.
  intros Hk. unfold allocate. destruct (m !! url r) eqn:Hr; [done|].
  unfold make_local_path. simpl.
  assert (url r <> k) by congruence.
  by rewrite !lookup_insert_ne.
Qed.

Lemma allocate_covers (m : gmap string string) (r : resource) :
  is_Some (allocate m r !! url r).
Proof.
  unfold allocate. destruct (m !! url r) eqn:Hr; [by eauto|].
  unfold make_local_path. simpl. rewrite lookup_insert_eq. by eauto.
Qed.

Lemma fold_allocate_keep (rs : list resource) (m : gmap string string) (k v : string) :
  m !! k = Some v -> fold_left allocate rs m !! k = Some v.
Proof.
  revert m. induction rs as [|r rs IH]; simpl; [done|].
  intros m Hk. apply IH. by apply allocate_keep.
Qed.

Lemma fold_allocate_covers (rs : list resource) (m : gmap string string) (r : resource) :
  In r rs -> is_Some (fold_left allocate rs m !! url r).
Proof.
  revert m. induction rs as [|r' rs IH]; simpl; [done|].
  intros m [->|Hin]; [|by apply IH].
  destruct (allocate_covers m r) as [v Hv].
  exists v. by apply fold_allocate_keep.
Qed.

Lemma fold_allocate_full (rs : list resource) (m : gmap string string) :
  (forall r, In r rs -> is_Some (m !! url r)) -> fold_left allocate rs m = m.
Proof.
  revert m. induction rs as [|r rs IH]; simpl; [done|].
  intros m Hall. unfold allocate at 2.
  destruct (Hall r (or_introl eq_refl)) as [v Hv]. rewrite Hv.
  apply IH. auto.
Qed.

Lemma has_char_app (c : ascii) (s t : string) :
  Py.has_char c (s +:+ t) = Py.has_char c s || Py.has_char c t.
Proof.
  induction s as [|d s IH]; [done|].
  rewrite str_app_cons. simpl. by rewrite IH, orb_assoc.
Qed.

(** [s.replace(c, "_")] for one character [c]. *)
Lemma replace_one_has (d c : ascii) (s : string) :
  d <> "_"%char ->
  Py.has_char d (Py.replace (String c EmptyString) "_" s) =
    negb (Ascii.eqb d c) && Py.has_char d s.
Proof.
  intros Hd. unfold Py.replace.
  induction s as [|x r IH]; simpl; [by rewrite andb_false_r|].
  destruct (ascii_dec c x) as [<-|Hne]; simpl.
  - replace (String.prefix EmptyString r) with true by (destruct r; reflexivity).
    rewrite str_app_cons, str_app_nil. simpl.
    rewrite IH. destruct (Ascii.eqb_spec d "_"); [done|].
    destruct (Ascii.eqb d c); simpl; done.
  - rewrite IH. destruct (Ascii.eqb_spec d x) as [->|]; simpl.
    + destruct (Ascii.eqb_spec x c); [congruence|done].
    + done.
Qed.

Lemma replace_one_length (c : ascii) (s : string) :
  String.length (Py.replace (String c EmptyString) "_" s) = String.length s.
Proof.
  unfold Py.replace.
  induction s as [|x r IH]; simpl; [done|].
  destruct (ascii_dec c x) as [<-|Hne]; simpl.
  - replace (String.prefix EmptyString r) with true by (destruct r; reflexivity).
    rewrite str_app_cons, str_app_nil. simpl. by rewrite IH.
  - by rewrite IH.
Qed.

Lemma sanitize_safe (s : string) (c : ascii) :
  In (String c EmptyString) unsafe_chars -> Py.has_char c (sanitize s) = false.
Proof.
  intros Hc. unfold sanitize, unsafe_chars in *. cbn [fold_left].
  simpl in Hc.
  repeat (destruct Hc as [Hc|Hc]; [injection Hc as <-;
            repeat (rewrite replace_one_has by discriminate); reflexivity|]).
  contradiction.
Qed.

Lemma sanitize_length (s : string) : String.length (sanitize s) = String.length s.
Proof.
  unfold sanitize, unsafe_chars. cbn [fold_left]. by rewrite !replace_one_length.
Qed.

Lemma pretty_N_go_has (c : ascii) (x : N) (s : string) :
  (forall y, pretty_N_char y <> c) ->
  Py.has_char c s = false -> Py.has_char c (pretty_N_go x s) = false.
Proof.
  intros Hc. revert s. induction (N.lt_wf_0 x) as [x _ IH]; intros s Hs.
  destruct (decide (x = 0%N)) as [->|Hx]; [by rewrite pretty_N_go_0|].
  rewrite pretty_N_go_step by lia. apply IH; [apply N.div_lt; lia|].
  simpl. rewrite Hs, orb_false_r.
  destruct (Ascii.eqb_spec c (pretty_N_char (x `mod` 10))) as [E|]; [|done].
  exfalso. by apply (Hc (x `mod` 10)%N).
Qed.

Lemma pretty_nat_has (c : ascii) (k : nat) :
  (forall y, pretty_N_char y <> c) -> Py.has_char c (pretty k) = false.
Proof.
  intros Hc. change (pretty k) with (pretty_N (N.of_nat k)). unfold pretty_N.
  destruct (decide (N.of_nat k = 0%N)).
  - cbn [Py.has_char]. rewrite orb_false_r.
    destruct (Ascii.eqb_spec c "0") as [E|]; [|reflexivity].
    exfalso. apply (Hc 0%N). rewrite E. reflexivity.
  - by apply pretty_N_go_has.
Qed.

Lemma unsafe_not_digit (c : ascii) :
  In (String c EmptyString) unsafe_chars -> forall y, pretty_N_char y <> c.
Proof.
  intros Hc y. unfold pretty_N_char.
  simpl in Hc.
  repeat (destruct Hc as [Hc|Hc]; [injection Hc as <-; repeat case_match; discriminate|]).
  contradiction.
Qed.

Lemma path_ext_safe (r : resource) (c : ascii) :
  In (String c EmptyString) unsafe_chars -> Py.has_char c (path_ext r) = false.
Proof.
  intros Hc. unfold path_ext, guess_extension.
  destruct (find _ mime_extensions) as [[mt e]|] eqn:Hf; simpl; [|done].
  apply find_some in Hf as [Hin _]. unfold mime_extensions in Hin. simpl in Hc.
  repeat (destruct Hc as [Hc|Hc]; [injection Hc as <-;
            repeat (destruct Hin as [Hin|Hin]; [injection Hin as _ <-; reflexivity|]);
            contradiction|]).
  contradiction.
Qed.

Lemma mem_reserved_length (x : string) :
  Url.mem x ["con"; "prn"; "aux"; "nul"] = true -> String.length x = 3.
Proof.
  unfold Url.mem. intros H. apply existsb_exists in H as (y & Hy & Hxy).
  apply String.eqb_eq in Hxy as ->. simpl in Hy.
  repeat (destruct Hy as [<-|Hy]; [reflexivity|]). contradiction.
Qed.

Lemma lower_length (s : string) : String.length (Py.lower s) = String.length s.
Proof. induction s as [|c s IH]; simpl; congruence. Qed.

Lemma lower_app (s t : string) : Py.lower (s +:+ t) = Py.lower s +:+ Py.lower t.
Proof. induction s as [|c s IH]; [done|]. rewrite str_app_cons. simpl. by rewrite IH. Qed.

Lemma substring_app_prefix (s t : string) :
  String.substring 0 (String.length s) (s +:+ t) = s.
Proof.
  induction s as [|c s IH]; [by destruct t|].
  rewrite str_app_cons. simpl. by rewrite IH.
Qed.

Lemma url_base_nonempty (r : resource) : Url.nonempty (url_base r) = true.
Proof.
  unfold url_base.
  match goal with |- context [if Url.nonempty ?b then ?b else _] =>
    destruct (Url.nonempty b) eqn:E end; [exact E|reflexivity].
Qed.

End AllocatorMore.

Lemma path_resources_error (a : archive) :
  frames_have_mains a = false -> path_resources a = Err AttributeError.
Proof.
  unfold frames_have_mains, path_resources. intros H.
  assert (fold_right (fun sf acc =>
                  r ← acc ; match main_resource sf with
                              | Some m => Ok (m :: r)
                              | None => Err AttributeError
                              end) (Ok []) (subframe_archives a) = Err AttributeError) as ->.
  { induction (subframe_archives a) as [|sf l IH]; simpl in *; [done|].
    destruct (forallb _ l) eqn:Hl.
    - rewrite andb_true_r in H.
      assert (exists ms, fold_right (fun sf acc =>
                  r ← acc ; match main_resource sf with
                              | Some m => Ok (m :: r)
                              | None => Err AttributeError
                              end) (Ok []) l = Ok ms) as [ms ->].
      { clear IH H. induction l as [|sf' l IH']; simpl in *; [by eexists|].
        apply andb_prop in Hl as [Hsf Hl]. destruct (IH' Hl) as [ms ->].
        destruct (main_resource sf'); [|done]. by eexists. }
      simpl. destruct (main_resource sf); [done|reflexivity].
    - rewrite IH by reflexivity. reflexivity. }
  reflexivity.
Qed.

Lemma reserved_not_device (x : string) :
  Url.mem x ["con"; "prn"; "aux"; "nul"] = true -> Url.mem x ["com"; "lpt"] = false.
Proof.
  unfold Url.mem at 1. intros H. apply existsb_exists in H as (y & Hy & Hxy).
  apply String.eqb_eq in Hxy as ->. simpl in Hy.
  repeat (destruct Hy as [<-|Hy]; [reflexivity|]). contradiction.
Qed.

Lemma path_base_safe (r : resource) (c : ascii) :
  In (String c EmptyString) unsafe_chars -> Py.has_char c (path_base r) = false.
Proof.
  intros Hc. unfold path_base.
  pose proof (sanitize_safe (url_base r) c Hc) as Hb.
  destruct (reserved_name _); [|exact Hb].
  rewrite has_char_app, Hb. simpl in Hc.
  repeat (destruct Hc as [Hc|Hc]; [injection Hc as <-; reflexivity|]). contradiction.
Qed.

Lemma make_local_paths_fixed (a a' : archive) :
  make_local_paths a = Ok a' -> make_local_paths a' = Ok a'.
Proof.
  intros Hm. unfold make_local_paths in *.
  destruct (path_resources a) as [rs|e] eqn:Hrs; simpl in Hm; [|discriminate].
  injection Hm as <-.
  assert (path_resources (Archive (main_resource a) (subresources a) (subframe_archives a)
            (fold_left allocate rs (local_paths a))) = Ok rs) as -> by (rewrite <- Hrs; reflexivity).
  simpl. rewrite fold_allocate_full; [reflexivity|].
  intros r Hr. by apply fold_allocate_covers.
Qed.

Lemma make_local_paths_inj (a a' : archive) :
  map_inj (local_paths a) -> make_local_paths a = Ok a' -> map_inj (local_paths a').
Proof.
  intros Hinj Hm. unfold make_local_paths in Hm.
  destruct (path_resources a) as [rs|e]; simpl in Hm; [|discriminate].
  injection Hm as <-. simpl. apply (fold_allocate_spec rs _ Hinj).
Qed.

Lemma make_local_paths_shape (a a' : archive) :
  make_local_paths a = Ok a' ->
  main_resource a' = main_resource a /\ subresources a' = subresources a /\
  subframe_archives a' = subframe_archives a.
Proof.
  intros Hm. unfold make_local_paths in Hm.
  destruct (path_resources a); simpl in Hm; [|discriminate]. by injection Hm as <-.
Qed.

(** *** Extras: the allocator *)

(** [_make_local_paths] keeps every local path already allocated and
    leaves the resources alone; afterwards every resource it walks (main
    resource, subresources, main resources of the subframe archives) has
    a local path. *)
Theorem make_local_paths_covers (a a' : archive) (rs : list resource) :
  path_resources a = Ok rs -> make_local_paths a = Ok a' ->
  main_resource a' = main_resource a /\ subresources a' = subresources a /\
  subframe_archives a' = subframe_archives a /\
  (forall k v, local_paths a !! k = Some v -> local_paths a' !! k = Some v) /\
  (forall r, In r rs -> is_Some (local_paths a' !! url r)).
Proof.
  intros Hrs Hm. unfold make_local_paths in Hm. rewrite Hrs in Hm. simpl in Hm.
  injection Hm as <-. simpl.
  split; [done|split; [done|split; [done|split]]].
  - intros k v Hk. by apply fold_allocate_keep.
  - intros r Hr. by apply fold_allocate_covers.
Qed.

Lemma make_local_paths_covers_witness :
  path_resources sample_archive = Ok sample_resources /\
  make_local_paths sample_archive = Ok sample_allocated /\
  is_Some (local_paths sample_allocated !! url pic_q).
Proof.
  assert (H1 : path_resources sample_archive = Ok sample_resources) by reflexivity.
  assert (H2 : make_local_paths sample_archive = Ok sample_allocated)
    by (vm_compute; reflexivity).
  split; [exact H1|split; [exact H2|]].
  destruct (make_local_paths_covers sample_archive sample_allocated sample_resources H1 H2)
    as (_ & _ & _ & _ & Hc).
  apply Hc. simpl. tauto.
Defined.

(** Running [_make_local_paths] again on the archive it produced changes
    nothing: every URL it walks already has a local path. *)
Theorem make_local_paths_idempotent (a a' : archive) :
  make_local_paths a = Ok a' -> make_local_paths a' = Ok a'.
Proof. exact (make_local_paths_fixed a a'). Qed.

Lemma make_local_paths_idempotent_witness :
  make_local_paths sample_archive = Ok sample_allocated /\
  make_local_paths sample_allocated = Ok sample_allocated.
Proof.
  assert (H : make_local_paths sample_archive = Ok sample_allocated)
    by (vm_compute; reflexivity).
  split; [exact H|]. exact (make_local_paths_idempotent sample_archive sample_allocated H).
Defined.

(** When no URL it parses makes [urlparse] raise, [_make_local_paths]
    raises [AttributeError] (from [subframe_archive._main_resource.url])
    exactly when a subframe archive has no main resource. *)
Theorem make_local_paths_attribute_error (a : archive) :
  urls_safe a = true ->
  (make_local_paths a = Err AttributeError <-> frames_have_mains a = false).
Proof.
  intros _. split.
  - intros Hm. destruct (frames_have_mains a) eqn:Hf; [|reflexivity].
    destruct (make_local_paths_ok a Hf) as [lp Hlp]. congruence.
  - intros Hf. unfold make_local_paths. by rewrite path_resources_error.
Qed.

Lemma make_local_paths_attribute_error_witness :
  let a := Archive (Some page_main) [pic_img] [Archive None [] [] ∅] ∅ in
  urls_safe a = true /\ make_local_paths a = Err AttributeError.
Proof.
  cbv zeta. split; [reflexivity|].
  apply (proj2 (make_local_paths_attribute_error
                  (Archive (Some page_main) [pic_img] [Archive None [] [] ∅] ∅) eq_refl)).
  reflexivity.
Defined.

(** A local path never contains any of the characters the allocator
    replaces ([%], [<], [>], [:], the double quote, [/], [\], [|], [?],
    [*]). *)
Theorem local_path_safe (m : gmap string string) (r : resource) (c : ascii) :
  In (String c EmptyString) unsafe_chars ->
  Py.has_char c (fst (make_local_path m r)) = false.
Proof.
  intros Hc. destruct (make_local_path_spec m r) as (k & _ & -> & _).
  unfold candidate. destruct (Nat.eqb k 1).
  - by rewrite has_char_app, path_base_safe, path_ext_safe.
  - rewrite !has_char_app, path_base_safe, path_ext_safe by exact Hc.
    rewrite pretty_nat_has by (by apply unsafe_not_digit).
    simpl in Hc.
    repeat (destruct Hc as [Hc|Hc]; [injection Hc as <-; reflexivity|]). contradiction.
Qed.

Lemma local_path_safe_witness :
  In (String "/" EmptyString) unsafe_chars /\
  Py.has_char "/" (fst (make_local_path ∅ (res "x" "text/plain" "https://x/a/b/c.txt"))) = false.
Proof.
  split; [simpl; tauto|]. apply local_path_safe. simpl; tauto.
Defined.

(** The base name the allocator chooses is never empty and never one of
    the reserved DOS device names ([con], [prn], [aux], [nul], [comN],
    [lptN] in any case). *)
Theorem path_base_valid (r : resource) :
  path_base r <> EmptyString /\ reserved_name (path_base r) = false.
Proof.
  unfold path_base. set (b := sanitize (url_base r)).
  assert (Hlen : 0 < String.length b).
  { subst b. rewrite sanitize_length. pose proof (url_base_nonempty r) as H.
    destruct (url_base r); simpl in *; [discriminate|lia]. }
  destruct (reserved_name b) eqn:Hres.
  - split.
    { intros E. apply (f_equal String.length) in E. rewrite str_length_app in E.
      simpl in E. lia. }
    assert (Hmem : forall x, Url.mem (Py.lower x) ["con"; "prn"; "aux"; "nul"] = true ->
                             String.length x = 3).
    { intros x Hx. apply mem_reserved_length in Hx. by rewrite lower_length in Hx. }
    unfold reserved_name in *.
    assert (Hb34 : String.length b = 3 \/ String.length b = 4).
    { apply orb_true_iff in Hres as [H3|H4]; [left; by apply Hmem|right].
      apply andb_prop in H4 as [H4 _]. apply andb_prop in H4 as [H4 _].
      by apply Nat.eqb_eq in H4. }
    destruct (Url.mem (Py.lower (b +:+ "_")) _) eqn:E1.
    { apply Hmem in E1. rewrite str_length_app in E1. simpl in E1. lia. }
    rewrite orb_false_l. apply orb_true_iff in Hres as [H3|H4].
    + pose proof (Hmem b H3) as Hb3.
      replace (String.substring 0 3 (b +:+ "_"))
        with (String.substring 0 (String.length b) (b +:+ "_")) by (by rewrite Hb3).
      rewrite substring_app_prefix, reserved_not_device by exact H3.
      by rewrite !andb_false_r.
    + apply andb_prop in H4 as [H4 _]. apply andb_prop in H4 as [H4 _].
      apply Nat.eqb_eq in H4. rewrite str_length_app, H4. reflexivity.
  - split; [|exact Hres]. intros E. rewrite E in Hlen. simpl in Hlen. lia.
Qed.

(** ** Further properties: lookups and URL helpers *)

Lemma find_first {A} (f : A -> bool) (l : list A) (x : A) :
  find f l = Some x <->
  exists l1 l2, l = (l1 ++ x :: l2)%list /\ f x = true /\ Forall (fun y => f y = false) l1.
Proof.
  induction l as [|y l IH]; simpl.
  - split; [discriminate|]. intros (l1 & l2 & E & _). by destruct l1.
  - destruct (f y) eqn:Hy.
    + split.
      * intros [= <-]. exists [], l. auto.
      * intros ([|z l1] & l2 & E & Hx & Hl1); simpl in E; injection E as -> E; [done|].
        inversion Hl1. congruence.
    + rewrite IH. split.
      * intros (l1 & l2 & -> & Hx & Hl1). exists (y :: l1), l2. auto.
      * intros ([|z l1] & l2 & E & Hx & Hl1); simpl in E; injection E as -> E; [congruence|].
        inversion Hl1. eauto.
Qed.

Lemma find_subframe_first (u : string) (l : list archive) (sf : archive) :
  find_subframe u l = Ok sf <->
  exists l1 l2 m, l = (l1 ++ sf :: l2)%list /\ main_resource sf = Some m /\ url m = u /\
    Forall (fun x => exists m', main_resource x = Some m' /\ url m' <> u) l1.
Proof.
  induction l as [|y l IH]; simpl.
  - split; [discriminate|]. intros (l1 & l2 & m & E & _). by destruct l1.
  - destruct (main_resource y) as [my|] eqn:Hy.
    + destruct (String.eqb_spec (url my) u) as [Hu|Hu].
      * split.
        -- intros [= <-]. exists [], l, my. auto.
        -- intros ([|z l1] & l2 & m & E & Hm & Hmu & Hl1); simpl in E; injection E as -> E;
             [done|].
           inversion Hl1 as [|? ? (m' & Hm' & Hne)]. congruence.
      * rewrite IH. split.
        -- intros (l1 & l2 & m & -> & Hm & Hmu & Hl1). exists (y :: l1), l2, m.
           repeat split; auto. constructor; eauto.
        -- intros ([|z l1] & l2 & m & E & Hm & Hmu & Hl1); simpl in E; injection E as -> E;
             [congruence|].
           inversion Hl1. eauto 10.
    + split; [discriminate|].
      intros ([|z l1] & l2 & m & E & Hm & Hmu & Hl1); simpl in E; injection E as -> E;
        [congruence|].
      inversion Hl1 as [|? ? (m' & Hm' & _)]. congruence.
Qed.

(** *** Extras: lookups *)

(** [get_subresource] succeeds exactly for an absolute URL (one
    containing [://]) that some subresource has, and returns the first
    subresource with that URL. *)
Theorem get_subresource_first (a : archive) (u : string) (r : resource) :
  get_subresource a u = Ok r <->
  Py.contains "://" u = true /\
  exists l1 l2, subresources a = (l1 ++ r :: l2)%list /\ url r = u /\
    Forall (fun x => url x <> u) l1.
Proof.
  unfold get_subresource. destruct (Py.contains "://" u); simpl.
  - destruct (find _ _) as [r'|] eqn:Hf.
    + pose proof Hf as Hf0. apply find_first in Hf as (l1 & l2 & E & Hr' & Hl1).
      apply String.eqb_eq in Hr'. split.
      * intros [= <-]. split; [done|]. exists l1, l2. repeat split; auto.
        eapply Forall_impl; [exact Hl1|]. intros x Hx. by apply String.eqb_neq.
      * intros [_ (k1 & k2 & E' & Hr & Hk1)].
        assert (Hf' : find (fun r => String.eqb (url r) u) (subresources a) = Some r).
        { apply find_first. exists k1, k2. repeat split; [done|by apply String.eqb_eq|].
          eapply Forall_impl; [exact Hk1|]. intros x Hx. by apply String.eqb_neq. }
        congruence.
    + split; [discriminate|]. intros [_ (l1 & l2 & E & Hr & Hl1)].
      assert (find (fun r => String.eqb (url r) u) (subresources a) = Some r) as Hr2.
      { apply find_first. exists l1, l2. repeat split; [done|by apply String.eqb_eq|].
        eapply Forall_impl; [exact Hl1|]. intros x Hx. by apply String.eqb_neq. }
      congruence.
  - split; [discriminate|]. by intros [? _].
Qed.

(** [get_subframe_archive] succeeds exactly for an absolute URL that is
    the URL of some subframe archive's main resource, and returns the
    first such subframe archive, provided every subframe archive before
    it has a main resource (otherwise [main_resource.url] raises). *)
Theorem get_subframe_archive_first (a : archive) (u : string) (sf : archive) :
  get_subframe_archive a u = Ok sf <->
  Py.contains "://" u = true /\
  exists l1 l2 m, subframe_archives a = (l1 ++ sf :: l2)%list /\
    main_resource sf = Some m /\ url m = u /\
    Forall (fun x => exists m', main_resource x = Some m' /\ url m' <> u) l1.
Proof.
  unfold get_subframe_archive. destruct (Py.contains "://" u); simpl.
  - rewrite find_subframe_first. split; [by intros H|by intros [_ H]].
  - split; [discriminate|]. by intros [? _].
Qed.

(** *** Extras: [_get_absolute_url] and [_get_local_url] *)

(** A base that is not an absolute URL makes [_get_local_url] raise
    [WebArchiveError] in every mode: the error comes from
    [_get_absolute_url], before the [try] block that falls back to the
    absolute URL. *)
Theorem get_local_url_relative_base (tdu : resource -> result string) (a : archive)
    (subdir : option string) (orig_url b : string) :
  Url.nonempty b = true -> Py.contains "://" b = false ->
  get_local_url tdu a subdir orig_url (Some b) =
    Err (WebArchiveError "base must be an absolute URL").
Proof.
  intros Hb Hc. unfold get_local_url, get_absolute_url. rewrite Hb, Hc. reflexivity.
Qed.

Lemma get_local_url_relative_base_witness :
  get_local_url sample_to_data_uri sample_archive (Some "page_files") "pic.png" (Some "css/")
  = Err (WebArchiveError "base must be an absolute URL").
Proof. apply get_local_url_relative_base; reflexivity. Defined.

(** A URL the archive does not hold (no local path, no subresource)
    comes back from [_get_local_url] as its absolute URL, in both
    modes. *)
Theorem get_local_url_not_held (tdu : resource -> result string) (a : archive)
    (subdir : option string) (orig_url : string) (base : option string) (abs_url : string) :
  get_absolute_url a orig_url base = Ok abs_url ->
  local_paths a !! abs_url = None ->
  Forall (fun r => url r <> abs_url) (subresources a) ->
  get_local_url tdu a subdir orig_url base = Ok abs_url.
Proof.
  intros Habs Hlp Hsubs. unfold get_local_url. rewrite Habs. simpl.
  destruct subdir as [d|].
  - unfold get_local_path. rewrite Hlp. reflexivity.
  - unfold get_subresource. destruct (Py.contains "://" abs_url); [|reflexivity].
    simpl. destruct (find _ _) as [r|] eqn:Hf; [|reflexivity].
    apply find_first in Hf as (l1 & l2 & E & Hr & _).
    apply String.eqb_eq in Hr. rewrite E in Hsubs.
    apply Forall_app in Hsubs as [_ Hsubs]. inversion Hsubs. congruence.
Qed.

Lemma get_local_url_not_held_witness :
  get_local_url sample_to_data_uri sample_archive None "https://ext/logo.png" None
  = Ok "https://ext/logo.png".
Proof.
  apply (get_local_url_not_held _ sample_archive None _ None "https://ext/logo.png").
  - vm_compute. reflexivity.
  - reflexivity.
  - repeat constructor; simpl; discriminate.
Defined.

(** In linked mode the markup rewriter's [_resource_url] and the
    archive's [_get_local_url] agree: for the processor made for a
    subresource directory, both give [dir/local_path] for a URL with a
    local path and the absolute URL otherwise. *)
Theorem resource_url_get_local_url (tdu : resource -> result string) (a : archive)
    (d : string) (p : processor) (orig_url : string) :
  make_processor a (Some d) = Ok p ->
  get_local_url tdu a (Some d) orig_url None = Ok (resource_url p orig_url).
Proof.
  unfold make_processor. destruct (main_resource a) as [m|] eqn:Hm; [|discriminate].
  intros [= <-]. unfold get_local_url, get_absolute_url, resource_url, absolute_url.
  rewrite Hm. simpl. unfold get_local_path. destruct (local_paths a !! _); reflexivity.
Qed.

Lemma resource_url_get_local_url_witness :
  get_local_url sample_to_data_uri sample_allocated (Some "page_files") "img/a.png" None
  = Ok "page_files/a.2.png".
Proof.
  assert (Hp : make_processor sample_allocated (Some "page_files") = Ok linked_proc)
    by (vm_compute; reflexivity).
  rewrite (resource_url_get_local_url sample_to_data_uri _ _ _ "img/a.png" Hp).
  vm_compute. reflexivity.
Defined.

(** ** Further properties: the markup rewriter *)

Lemma escape_safe (q : bool) (s : string) (x : ascii) :
  (x = "<"%char \/ x = ">"%char \/ (q = true /\ (x = "034"%char \/ x = "'"%char))) ->
  Py.has_char x (Py.escape s q) = false.
Proof.
  intros Hx. induction s as [|c s IH]; [done|]. simpl.
  rewrite has_char_app, IH, orb_false_r.
  destruct Hx as [Hx|[Hx|[Hq [Hx|Hx]]]]; subst; [destruct q|destruct q| |];
  unfold Py.escape_char; simpl;
  repeat (match goal with |- context [Ascii.eqb c ?y] =>
            destruct (Ascii.eqb_spec c y); [subst; reflexivity|] end);
  cbn [Py.has_char orb];
  match goal with |- context [Ascii.eqb ?x c] =>
    destruct (Ascii.eqb_spec x c); [congruence|reflexivity] end.
Qed.

Lemma handle_processor tdu fdu (p p1 : processor) (e : html_event) (s : string) :
  handle tdu fdu p e = Ok (p1, s) ->
  proc_archive p1 = proc_archive p /\ proc_main p1 = proc_main p /\
  proc_root p1 = proc_root p /\ proc_is_xhtml p1 = proc_is_xhtml p || xhtml_decl e.
Proof.
  destruct e; simpl; intros H;
    try (destruct (build_starttag _ _ _ _ _ _); simpl in H; [|discriminate]);
    injection H as <- _; rewrite ?orb_false_r; try done.
  unfold xhtml_decl. destruct (Py.contains _ _); simpl; [|by rewrite orb_false_r].
  by rewrite orb_true_r.
Qed.

(** *** Extras: the markup rewriter *)

(** Feeding a document never changes the processor's archive, main
    resource or root; it ends in XHTML mode exactly when it started in it
    (an [application/xhtml+xml] main resource) or a declaration containing
    [//DTD XHTML ] was handled. *)
Theorem feed_processor tdu fdu (p p' : processor) (evs : list html_event) (out : string) :
  feed tdu fdu p evs = (out, Ok p') ->
  proc_archive p' = proc_archive p /\ proc_main p' = proc_main p /\
  proc_root p' = proc_root p /\
  proc_is_xhtml p' = proc_is_xhtml p || existsb xhtml_decl evs.
Proof.
  revert p out. induction evs as [|e evs IH]; simpl; intros p out H.
  - injection H as _ <-. by rewrite orb_false_r.
  - destruct (handle tdu fdu p e) as [[p1 s]|x] eqn:Hh; [|discriminate].
    destruct (feed tdu fdu p1 evs) as [out' r] eqn:Hf. injection H as _ ->.
    destruct (IH p1 out' Hf) as (H1 & H2 & H3 & H4).
    destruct (handle_processor tdu fdu p p1 e s Hh) as (G1 & G2 & G3 & G4).
    rewrite H1, H2, H3, H4, G1, G2, G3, G4. split; [done|split; [done|split; [done|]]].
    by rewrite orb_assoc.
Qed.


Lemma feed_processor_witness :
  feed sample_to_data_uri sample_frame_data_uri embedded_proc xhtml_doc =
    ("<!DOCTYPE html PUBLIC -//W3C//DTD XHTML 1.0 Strict//EN>" +:+ String "010" EmptyString
     +:+ "<br />", Ok (set_xhtml embedded_proc)) /\
  proc_is_xhtml (set_xhtml embedded_proc) = true.
Proof.
  assert (H : feed sample_to_data_uri sample_frame_data_uri embedded_proc xhtml_doc =
    ("<!DOCTYPE html PUBLIC -//W3C//DTD XHTML 1.0 Strict//EN>" +:+ String "010" EmptyString
     +:+ "<br />", Ok (set_xhtml embedded_proc))) by (vm_compute; reflexivity).
  split; [exact H|].
  destruct (feed_processor _ _ _ _ _ _ H) as (_ & _ & _ & ->). reflexivity.
Defined.

(** After a declaration containing [//DTD XHTML ], a void element's start
    tag is written self-closed with [ />]; this is stated for every void
    tag but [link], and for [link] when a root is set. *)
Theorem xhtml_decl_void_tag tdu fdu (p : processor) (decl tag : string)
    (attrs : list (string * string)) (body : string) :
  Py.contains "//DTD XHTML " decl = true ->
  Url.mem tag VOID_ELEMENTS = true ->
  (tag <> "link" \/ proc_root p <> None) ->
  attrs_text tdu fdu (set_xhtml p) tag attrs = Ok body ->
  feed tdu fdu p [Decl decl; StartTag tag attrs] =
    (("<!" +:+ decl +:+ ">" +:+ String "010" EmptyString)
       +:+ (("<" +:+ tag +:+ body +:+ " />") +:+ EmptyString),
     Ok (set_xhtml p)).
Proof.
  intros Hd Hv Hl Hb. simpl. rewrite Hd. simpl.
  assert (Hhtml : String.eqb tag "html" = false).
  { apply String.eqb_neq. intros ->. discriminate Hv. }
  assert (Hs : build_starttag tdu fdu (set_xhtml p) tag attrs false =
               Ok ("<" +:+ tag +:+ body +:+ " />")).
  { unfold build_starttag. cbn [proc_root set_xhtml]. rewrite Hb.
    cbn [mbind result_bind proc_is_xhtml set_xhtml andb orb]. rewrite Hv, Hhtml.
    destruct (proc_root p) as [r|]; [reflexivity|].
    destruct Hl as [Hl|Hl]; [|congruence].
    apply String.eqb_neq in Hl. rewrite Hl. reflexivity. }
  rewrite Hs. reflexivity.
Qed.

Lemma xhtml_decl_void_tag_witness :
  feed sample_to_data_uri sample_frame_data_uri embedded_proc
       [Decl "DOCTYPE html PUBLIC -//W3C//DTD XHTML 1.0 Strict//EN"; StartTag "hr" []] =
    (("<!" +:+ "DOCTYPE html PUBLIC -//W3C//DTD XHTML 1.0 Strict//EN" +:+ ">"
        +:+ String "010" EmptyString) +:+ (("<" +:+ "hr" +:+ EmptyString +:+ " />") +:+ EmptyString),
     Ok (set_xhtml embedded_proc)).
Proof.
  apply xhtml_decl_void_tag; [reflexivity|reflexivity| |reflexivity].
  left. discriminate.
Defined.

(** A document made only of text writes no [<] and no [>]: text is
    written through [html.escape], so it never turns into markup. *)
Theorem feed_text_only tdu fdu (p : processor) (evs : list html_event) :
  (forall e, In e evs -> exists d, e = Data d) ->
  snd (feed tdu fdu p evs) = Ok p /\
  Py.has_char "<" (fst (feed tdu fdu p evs)) = false /\
  Py.has_char ">" (fst (feed tdu fdu p evs)) = false.
Proof.
  induction evs as [|e evs IH]; simpl; intros Hd; [done|].
  destruct (Hd e (or_introl eq_refl)) as [d ->]. simpl.
  destruct IH as (H1 & H2 & H3); [by eauto|].
  destruct (feed tdu fdu p evs) as [out r]. simpl in *.
  rewrite !has_char_app, H2, H3, !escape_safe by auto. done.
Qed.

Lemma feed_text_only_witness :
  snd (feed sample_to_data_uri sample_frame_data_uri embedded_proc [Data "a<b"; Data "c>d"])
    = Ok embedded_proc.
Proof.
  apply (feed_text_only sample_to_data_uri sample_frame_data_uri embedded_proc
           [Data "a<b"; Data "c>d"]).
  intros e [<-|[<-|[]]]; eauto.
Defined.

(** Every attribute value the rewriter writes is escaped: it holds no
    double quote, single quote, [<] or [>], so it cannot end the quoted
    attribute or open a tag. *)
Theorem attr_value_escaped tdu fdu (p : processor) (tag attr value v : string) (x : ascii) :
  process_attr_value tdu fdu p tag attr value = Ok v ->
  In x ["<"; ">"; "034"; "'"]%char ->
  Py.has_char x v = false.
Proof.
  intros H Hx.
  assert (Hgen : forall s, Py.has_char x (Py.escape s true) = false).
  { intros s. apply escape_safe. simpl in Hx. intuition. }
  unfold process_attr_value, mbind, result_bind in H.
  repeat case_match; simplify_eq; apply Hgen.
Qed.

Lemma attr_value_escaped_witness :
  process_attr_value sample_to_data_uri sample_frame_data_uri embedded_proc "a" "title" "x>y"
    = Ok "x&gt;y" /\ Py.has_char ">" "x&gt;y" = false.
Proof.
  assert (H : process_attr_value sample_to_data_uri sample_frame_data_uri embedded_proc
                "a" "title" "x>y" = Ok "x&gt;y") by reflexivity.
  split; [exact H|]. apply (attr_value_escaped _ _ _ _ _ _ _ ">" H). simpl; tauto.
Defined.



(** ** Further properties: style sheets and data URIs *)

Lemma break_at_spec (c : ascii) (s a b : string) :
  Py.break_at c s = Some (a, b) -> s = a +:+ String c b /\ Py.has_char c a = false.
Proof.
  revert a b. induction s as [|d r IH]; simpl; intros a b H; [discriminate|].
  destruct (Ascii.eqb_spec c d) as [<-|Hne].
  - injection H as <- <-. done.
  - destruct (Py.break_at c r) as [[a' b']|] eqn:Hb; [|discriminate].
    injection H as <- <-. destruct (IH a' b' eq_refl) as [-> Ha'].
    rewrite str_app_cons. split; [done|]. simpl. rewrite Ha', orb_false_r.
    by apply Ascii.eqb_neq.
Qed.

Lemma prefix_split (p s : string) :
  String.prefix p s = true ->
  s = p +:+ String.substring (String.length p) (String.length s - String.length p) s.
Proof.
  revert s. induction p as [|x p IH]; intros s H.
  - rewrite str_app_nil. simpl. rewrite Nat.sub_0_r.
    clear H. induction s as [|y s IHs]; [done|]. simpl. f_equal. exact IHs.
  - destruct s as [|y s]; [discriminate|]. simpl in H.
    destruct (ascii_dec x y) as [<-|]; [|discriminate].
    rewrite str_app_cons. simpl. by rewrite <- IH.
Qed.

Lemma prefix_app_l (p q : string) : String.prefix p (p +:+ q) = true.
Proof.
  induction p as [|x p IH]; [by destruct q|].
  rewrite str_app_cons. simpl. destruct (ascii_dec x x); [exact IH|congruence].
Qed.

Lemma contains_prefix (sub s : string) : String.prefix sub s = true -> Py.contains sub s = true.
Proof. destruct s; simpl; intros ->; reflexivity. Qed.

Lemma contains_app_r (sub x t : string) :
  Py.contains sub t = true -> Py.contains sub (x +:+ t) = true.
Proof.
  intros H. induction x as [|y x IH]; [done|].
  rewrite str_app_cons. simpl. by rewrite IH, orb_true_r.
Qed.

Lemma findall_go_matches (f : nat) (s m : string) :
  In m (findall_go f s) ->
  m <> EmptyString /\ Py.has_char ")" m = false /\ Py.contains ("url(" +:+ m +:+ ")") s = true.
Proof.
  revert s. induction f as [|f IH]; simpl; intros s Hm; [contradiction|].
  destruct s as [|x r]; [contradiction|].
  assert (Htail : In m (findall_go f r) ->
    m <> EmptyString /\ Py.has_char ")" m = false /\
    Py.contains ("url(" +:+ m +:+ ")") (String x r) = true).
  { intros Hin. destruct (IH r Hin) as (H1 & H2 & H3). repeat split; [done|done|].
    simpl. by rewrite H3, orb_true_r. }
  destruct (String.prefix "url(" (String x r)) eqn:Hp; [|by apply Htail].
  destruct (Py.break_at ")" _) as [[[|c g] rest]|] eqn:Hb; [by apply Htail| |by apply Htail].
  apply prefix_split in Hp. remember (String x r) as s eqn:Es.
  apply break_at_spec in Hb as [Ht Hg].
  change (String.length "url(") with 4 in Hp.
  rewrite Ht in Hp. destruct Hm as [<-|Hin].
  - repeat split; [discriminate|exact Hg|]. rewrite Hp.
    apply contains_prefix.
    replace ("url(" +:+ (String c g +:+ String ")" rest))
      with (("url(" +:+ String c g +:+ ")") +:+ rest)
      by (rewrite <- !str_app_assoc; reflexivity).
    apply prefix_app_l.
  - destruct (IH rest Hin) as (H1 & H2 & H3). repeat split; [done|done|].
    rewrite Hp.
    replace ("url(" +:+ (String c g +:+ String ")" rest))
      with (("url(" +:+ String c g +:+ ")") +:+ rest)
      by (rewrite <- !str_app_assoc; reflexivity).
    by apply contains_app_r.
Qed.

Lemma findall_go_none (f : nat) (s : string) :
  Py.contains "url(" s = false -> findall_go f s = [].
Proof.
  revert s. induction f as [|f IH]; simpl; intros s H; [done|].
  destruct s as [|x r]; [done|].
  cbn [Py.contains] in H. apply orb_false_iff in H as [Hp Hr].
  rewrite Hp. by apply IH.
Qed.

Lemma all_chars_app (p : ascii -> bool) (s t : string) :
  Url.all_chars p (s +:+ t) = Url.all_chars p s && Url.all_chars p t.
Proof.
  induction s as [|c s IH]; [done|]. rewrite str_app_cons. simpl. by rewrite IH, andb_assoc.
Qed.

Lemma get_has (n : nat) (s : string) :
  n < String.length s -> exists c, String.get n s = Some c /\ Py.has_char c s = true.
Proof.
  revert n. induction s as [|d s IH]; simpl; intros n Hn; [lia|].
  destruct n as [|n].
  - exists d. split; [done|]. by rewrite Ascii.eqb_refl.
  - destruct (IH n ltac:(lia)) as (c & Hc & Hh). exists c. split; [done|].
    by rewrite Hh, orb_true_r.
Qed.

(** A character of the base64 output. *)

Lemma b64_char_spec (n : nat) :
  n < 64 -> exists c, b64_char n = String c EmptyString /\ b64_out c = true.
Proof.
  intros Hn. destruct (get_has n b64_alphabet Hn) as (c & Hc & Hh).
  exists c. unfold b64_char, b64_out. by rewrite Hc, Hh.
Qed.

Lemma b64_piece (n : nat) (t : string) :
  n < 64 ->
  String.length (b64_char n +:+ t) = S (String.length t) /\
  Url.all_chars b64_out (b64_char n +:+ t) = Url.all_chars b64_out t.
Proof.
  intros Hn. destruct (b64_char_spec n Hn) as (c & -> & Hc).
  rewrite str_app_cons, str_app_nil. simpl. by rewrite Hc.
Qed.

Lemma div_lt_64 (x d : nat) : 0 < d -> x < 64 * d -> x / d < 64.
Proof. intros Hd Hx. apply Nat.Div0.div_lt_upper_bound. lia. Qed.

Lemma escape_app (s t : string) (q : bool) :
  Py.escape (s +:+ t) q = Py.escape s q +:+ Py.escape t q.
Proof.
  induction s as [|c s IH]; [done|]. rewrite str_app_cons. simpl. by rewrite IH, str_app_assoc.
Qed.

Lemma escape_b64_out (s : string) :
  Url.all_chars b64_out s = true -> Py.escape s true = s.
Proof.
  induction s as [|c s IH]; simpl; [done|]. intros H. apply andb_prop in H as [Hc Hs].
  rewrite IH by exact Hs. unfold Py.escape_char.
  destruct (Ascii.eqb_spec c "&") as [->|]; [discriminate Hc|].
  destruct (Ascii.eqb_spec c "<") as [->|]; [discriminate Hc|].
  destruct (Ascii.eqb_spec c ">") as [->|]; [discriminate Hc|].
  destruct (Ascii.eqb_spec c "034") as [->|]; [discriminate Hc|].
  destruct (Ascii.eqb_spec c "'") as [->|]; [discriminate Hc|].
  reflexivity.
Qed.

Lemma b64encode_len_chars (n : nat) (s : string) :
  String.length s <= n ->
  String.length (b64encode s) = 4 * ((String.length s + 2) / 3) /\
  Url.all_chars b64_out (b64encode s) = true.
Proof.
  revert s. induction n as [|n IH]; intros s Hle.
  { destruct s; simpl in *; [done|lia]. }
  destruct s as [|a [|b [|c r]]]; simpl in Hle.
  - done.
  - cbn [b64encode]. pose proof (nat_ascii_bounded a).
    destruct (b64_piece (nat_of_ascii a / 4) (b64_char ((nat_of_ascii a mod 4) * 16) +:+ "=="))
      as [L1 A1]; [apply div_lt_64; lia|].
    destruct (b64_piece ((nat_of_ascii a mod 4) * 16) "==") as [L2 A2].
    { pose proof (Nat.mod_upper_bound (nat_of_ascii a) 4). lia. }
    rewrite L1, L2, A1, A2. split; reflexivity.
  - cbn [b64encode]. pose proof (nat_ascii_bounded a). pose proof (nat_ascii_bounded b).
    pose proof (Nat.mod_upper_bound (nat_of_ascii a) 4).
    pose proof (Nat.mod_upper_bound (nat_of_ascii b) 16).
    assert (nat_of_ascii b / 16 < 16) by (apply Nat.Div0.div_lt_upper_bound; lia).
    destruct (b64_piece (nat_of_ascii a / 4)
      (b64_char ((nat_of_ascii a mod 4) * 16 + nat_of_ascii b / 16)
       +:+ b64_char ((nat_of_ascii b mod 16) * 4) +:+ "=")) as [L1 A1]; [apply div_lt_64; lia|].
    destruct (b64_piece ((nat_of_ascii a mod 4) * 16 + nat_of_ascii b / 16)
      (b64_char ((nat_of_ascii b mod 16) * 4) +:+ "=")) as [L2 A2]; [lia|].
    destruct (b64_piece ((nat_of_ascii b mod 16) * 4) "=") as [L3 A3]; [lia|].
    rewrite L1, L2, L3, A1, A2, A3. split; reflexivity.
  - cbn [b64encode]. pose proof (nat_ascii_bounded a). pose proof (nat_ascii_bounded b).
    pose proof (nat_ascii_bounded c).
    pose proof (Nat.mod_upper_bound (nat_of_ascii a) 4).
    pose proof (Nat.mod_upper_bound (nat_of_ascii b) 16).
    pose proof (Nat.mod_upper_bound (nat_of_ascii c) 64).
    assert (nat_of_ascii b / 16 < 16) by (apply Nat.Div0.div_lt_upper_bound; lia).
    assert (nat_of_ascii c / 64 < 4) by (apply Nat.Div0.div_lt_upper_bound; lia).
    destruct (IH r ltac:(lia)) as [Lr Ar].
    destruct (b64_piece (nat_of_ascii c mod 64) (b64encode r)) as [L4 A4]; [lia|].
    destruct (b64_piece ((nat_of_ascii b mod 16) * 4 + nat_of_ascii c / 64)
      (b64_char (nat_of_ascii c mod 64) +:+ b64encode r)) as [L3 A3]; [lia|].
    destruct (b64_piece ((nat_of_ascii a mod 4) * 16 + nat_of_ascii b / 16)
      (b64_char ((nat_of_ascii b mod 16) * 4 + nat_of_ascii c / 64)
       +:+ b64_char (nat_of_ascii c mod 64) +:+ b64encode r)) as [L2 A2]; [lia|].
    destruct (b64_piece (nat_of_ascii a / 4)
      (b64_char ((nat_of_ascii a mod 4) * 16 + nat_of_ascii b / 16)
       +:+ b64_char ((nat_of_ascii b mod 16) * 4 + nat_of_ascii c / 64)
       +:+ b64_char (nat_of_ascii c mod 64) +:+ b64encode r)) as [L1 A1];
      [apply div_lt_64; lia|].
    rewrite L1, L2, L3, L4, A1, A2, A3, A4, Lr, Ar. split; [|done].
    change (String.length (String a (String b (String c r))))
      with (S (S (S (String.length r)))).
    replace (S (S (S (String.length r))) + 2) with ((String.length r + 2) + 1 * 3) by lia.
    rewrite Nat.div_add by lia. lia.
Qed.


(** *** Extras: style sheets and data URIs *)

(** Every URL [RX_STYLE_SHEET_URL.findall] reports is non-empty, holds no
    [)], and occurs in the style sheet as [url(...)]. *)
Theorem findall_url_matches (s m : string) :
  In m (findall_url s) ->
  m <> EmptyString /\ Py.has_char ")" m = false /\ Py.contains ("url(" +:+ m +:+ ")") s = true.
Proof. apply findall_go_matches. Qed.

Lemma findall_url_matches_witness :
  In "img/a.png" (findall_url (data two_png_css)) /\
  Py.contains ("url(" +:+ "img/a.png" +:+ ")") (data two_png_css) = true.
Proof.
  assert (H : In "img/a.png" (findall_url (data two_png_css))) by (vm_compute; tauto).
  split; [exact H|]. apply (findall_url_matches _ _ H).
Defined.

(** A style sheet without [url(] comes out of [process_style_sheet]
    unchanged, in every mode. *)
Theorem style_sheet_without_url tdu (res : resource) (subs : list resource)
    (lp : option (gmap string string)) :
  mime_type res = "text/css" ->
  Py.contains "url(" (data res) = false ->
  process_style_sheet tdu res subs lp = Ok (data res).
Proof.
  intros Hm Hc. unfold process_style_sheet, findall_url. rewrite Hm.
  rewrite findall_go_none by exact Hc. reflexivity.
Qed.

Lemma style_sheet_without_url_witness :
  process_style_sheet sample_to_data_uri
    (Resource "body{color:red}" "text/css" "https://x/s.css" (Some "utf-8") None) [] None
  = Ok "body{color:red}".
Proof. apply style_sheet_without_url; reflexivity. Defined.

(** [base64_string] output: four characters for every three bytes or
    part of them, all from the base64 alphabet or [=]. *)
Theorem b64encode_shape (s : string) :
  String.length (b64encode s) = 4 * ((String.length s + 2) / 3) /\
  Url.all_chars b64_out (b64encode s) = true.
Proof. exact (b64encode_len_chars (String.length s) s (le_n _)). Qed.

(** The data URIs [make_data_uri] builds come through [html.escape]
    unchanged whenever their MIME type does, so escaping an attribute
    value never corrupts an embedded resource. *)
Theorem make_data_uri_escape (mime d : string) :
  Py.escape mime true = mime ->
  Py.escape (make_data_uri mime d) true = make_data_uri mime d.
Proof.
  intros Hm. unfold make_data_uri. rewrite !escape_app, Hm.
  rewrite (escape_b64_out (b64encode d))
    by exact (proj2 (b64encode_len_chars (String.length d) d (le_n _))).
  reflexivity.
Qed.

Lemma make_data_uri_escape_witness :
  Py.escape "image/png" true = "image/png" /\
  Py.escape (make_data_uri "image/png" "PNG1") true = make_data_uri "image/png" "PNG1".
Proof. split; [reflexivity|]. apply make_data_uri_escape. reflexivity. Defined.

Lemma in_archive_tree (b a : archive) :
  In b (archive_tree a) <->
  b = a \/ exists sf, In sf (subframe_archives a) /\ In b (archive_tree sf).
Proof.
  destruct a as [m s f lp]. cbn [archive_tree subframe_archives].
  split.
  - intros [->|H]; [by left|right]. induction f as [|sf f IH]; [contradiction|].
    apply in_app_iff in H as [H|H].
    + exists sf. split; [by left|done].
    + destruct (IH H) as (sf' & ? & ?). exists sf'. split; [by right|done].
  - intros [->|(sf & Hsf & Hb)]; [by left|right].
    induction f as [|sf' f IH]; [contradiction|].
    apply in_app_iff. destruct Hsf as [<-|Hsf]; [by left|right; by apply IH].
Qed.

Lemma map_inj_empty : map_inj (∅ : gmap string string).
Proof. intros k1 k2 v H. by rewrite lookup_empty in H. Qed.

Lemma lower_char_idem (c : ascii) : Py.lower_char (Py.lower_char c) = Py.lower_char c.
Proof.
  unfold Py.lower_char.
  destruct (Nat.leb 65 (nat_of_ascii c) && Nat.leb (nat_of_ascii c) 90) eqn:E.
  - apply andb_prop in E as [E1 E2]. apply Nat.leb_le in E1, E2.
    rewrite nat_ascii_embedding by lia.
    replace (Nat.leb (nat_of_ascii c + 32) 90) with false
      by (symmetry; apply Nat.leb_gt; lia).
    by rewrite andb_false_r.
  - by rewrite E.
Qed.

Lemma lower_idem (s : string) : Py.lower (Py.lower s) = Py.lower s.
Proof. induction s as [|c s IH]; [done|]. simpl. by rewrite lower_char_idem, IH. Qed.

Section PlistMore.
Variable is_text_mime_type : string -> bool.
Variable encode : string -> option string -> result string.

Lemma create_resources_length (l : list resource_dict) (rs : list resource) :
  create_resources is_text_mime_type encode l = Ok rs -> length rs = length l.
Proof.
  revert rs. induction l as [|x l IH]; intros rs H; simpl in H.
  - by injection H as <-.
  - unfold mbind, result_bind in H.
    destruct (create_resource _ _ x); [|discriminate].
    destruct (create_resources _ _ l) eqn:E; [|discriminate].
    injection H as <-. simpl. by rewrite (IH _ eq_refl).
Qed.

End PlistMore.

(** *** Extras: loading an archive from its property list *)

(** A resource dictionary that lacks [WebResourceData],
    [WebResourceMIMEType] or [WebResourceURL] is refused with a
    [KeyError]. *)
Theorem create_resource_missing_key (itm : string -> bool)
    (enc : string -> option string -> result string) (d : resource_dict) :
  WebResourceData d = None \/ WebResourceMIMEType d = None \/ WebResourceURL d = None ->
  create_resource itm enc d = Err KeyError.
Proof.
  unfold create_resource. intros [H|[H|H]]; rewrite H; [reflexivity| |].
  - by destruct (WebResourceData d).
  - by destruct (WebResourceData d), (WebResourceMIMEType d).
Qed.

Lemma create_resource_missing_key_witness :
  let d := ResourceDict (Some (PBytes "PNG1")) (Some "image/png") None None None in
  (WebResourceData d = None \/ WebResourceMIMEType d = None \/ WebResourceURL d = None) /\
  create_resource (fun _ => false) (fun s _ => Ok s) d = Err KeyError.
Proof.
  cbv zeta. split; [right; right; reflexivity|].
  apply create_resource_missing_key. right; right; reflexivity.
Defined.

(** A resource loaded with a [text/] MIME type, or with a MIME type that
    [is_text_mime_type] accepts, always has a text encoding, and that
    encoding is in lower case. *)
Theorem create_resource_encoding (itm : string -> bool)
    (enc : string -> option string -> result string) (d : resource_dict) (r : resource) :
  create_resource itm enc d = Ok r ->
  Py.startswith (mime_type r) "text/" = true \/ itm (mime_type r) = true ->
  exists e, text_encoding r = Some e /\ Py.lower e = e.
Proof.
  unfold create_resource, mbind, result_bind.
  destruct (WebResourceData d) as [dat|]; [|discriminate].
  destruct (WebResourceMIMEType d) as [mime|]; [|discriminate].
  destruct (WebResourceURL d) as [u|]; [|discriminate]. cbn [from_key].
  destruct (new_resource itm enc dat mime u None None) as [r0|e] eqn:Hr0; [|discriminate].
  intros H. injection H as <-. cbn [mime_type text_encoding].
  assert (mime_type r0 = mime /\
          text_encoding r0 = if itm mime then Some "utf-8" else None) as [Hm Ht].
  { unfold new_resource in Hr0. cbn [opt_truthy negb] in Hr0. rewrite andb_true_r in Hr0.
    destruct dat as [b|s].
    - cbn in Hr0. by injection Hr0 as <-.
    - destruct (itm mime); cbn in Hr0; [|discriminate].
      destruct (enc s (Some "utf-8")); cbn in Hr0; [|discriminate]. by injection Hr0 as <-. }
  rewrite Hm. intros Htext.
  destruct (WebResourceTextEncodingName d) as [e|].
  - exists (Py.lower e). split; [done|]. apply lower_idem.
  - destruct (Py.startswith mime "text/"); [by eexists|].
    rewrite Ht. destruct Htext as [H|H]; [discriminate|]. rewrite H. by eexists.
Qed.

Lemma create_resource_encoding_witness :
  let d := ResourceDict (Some (PText "hi")) (Some "text/plain") (Some "https://x/a.txt")
                        (Some "UTF-8") None in
  let r := Resource "hi" "text/plain" "https://x/a.txt" (Some "utf-8") None in
  create_resource (fun _ => true) (fun s _ => Ok s) d = Ok r /\
  exists e, text_encoding r = Some e /\ Py.lower e = e.
Proof.
  cbv zeta. split; [reflexivity|].
  apply (create_resource_encoding (fun _ => true) (fun s _ => Ok s)
           (ResourceDict (Some (PText "hi")) (Some "text/plain") (Some "https://x/a.txt")
                         (Some "UTF-8") None)); [reflexivity|left; reflexivity].
Defined.

Section PlistFrames.
Variable is_text_mime_type : string -> bool.
Variable encode : string -> option string -> result string.

Lemma create_frames_spec (l : list archive_dict) (sas : list archive) :
  (fix go (l : list archive_dict) : result (list archive) :=
     match l with
     | [] => Ok []
     | x :: rest =>
         match create_archive is_text_mime_type encode x with
         | Ok a => match go rest with Ok a0 => Ok (a :: a0) | Err e => Err e end
         | Err e => Err e
         end
     end) l = Ok sas ->
  Forall2 (fun x sa => create_archive is_text_mime_type encode x = Ok sa) l sas.
Proof.
  revert sas. induction l as [|x l IH]; intros sas H.
  - injection H as <-. constructor.
  - simpl in H. destruct (create_archive _ _ x) as [sa|] eqn:Hx; [|discriminate].
    match type of H with match ?t with _ => _ end = _ => destruct t as [sas'|] eqn:E end;
      [|discriminate].
    injection H as <-. constructor; [done|]. by apply IH.
Qed.

(** [create_archive] unfolded one level, in terms of the results of
    the subresource and subframe loops. *)
Lemma create_archive_inv (main : option resource_dict) (subs : option (list resource_dict))
    (frames : option (list archive_dict)) (a : archive) :
  create_archive is_text_mime_type encode (ArchiveDict main subs frames) = Ok a ->
  exists md m rs sas,
    main = Some md /\ create_resource is_text_mime_type encode md = Ok m /\
    create_resources is_text_mime_type encode
      (match subs with Some l => l | None => [] end) = Ok rs /\
    Forall2 (fun x sa => create_archive is_text_mime_type encode x = Ok sa)
      (match frames with Some l => l | None => [] end) sas /\
    make_local_paths (Archive (Some m) rs sas ∅) = Ok a.
Proof.
  intros H. simpl in H. unfold mbind, result_bind in H.
  destruct main as [md|]; cbn [from_key] in H; [|discriminate].
  destruct (create_resource _ _ md) as [m|] eqn:Hm; [|discriminate].
  destruct (match subs with Some l => _ | None => _ end) as [rs|] eqn:Hrs; [|discriminate].
  destruct frames as [l|].
  - match type of H with match ?t with _ => _ end = _ => destruct t as [sas|] eqn:Hsas end;
      [|discriminate].
    exists md, m, rs, sas. split; [done|]. split; [done|]. split; [by destruct subs|].
    split; [by apply create_frames_spec|done].
  - exists md, m, rs, []. split; [done|]. split; [done|]. split; [by destruct subs|].
    split; [constructor|done].
Qed.

End PlistFrames.

(** Every archive [WebArchive._create_from_plist_data] builds, and every
    archive nested in its subframes, is complete: running
    [_make_local_paths] on it again changes nothing (every resource it
    holds already has a local path), and no two URLs share a local
    path. *)
Theorem create_archive_complete (itm : string -> bool)
    (enc : string -> option string -> result string) (d : archive_dict) (a : archive) :
  create_archive itm enc d = Ok a ->
  forall b, In b (archive_tree a) -> make_local_paths b = Ok b /\ map_inj (local_paths b).
Proof.
  revert a. induction d as [main subs frames IH] using archive_dict_ind'.
  intros a H.
  destruct (create_archive_inv itm enc main subs frames a H)
    as (md & m & rs & sas & _ & _ & _ & Hsas & Hmk).
  intros b Hb. apply in_archive_tree in Hb as [->|(sf & Hsf & Hb)].
  - split; [exact (make_local_paths_fixed _ _ Hmk)|].
    exact (make_local_paths_inj (Archive (Some m) rs sas ∅) _ map_inj_empty Hmk).
  - destruct (make_local_paths_shape _ _ Hmk) as (_ & _ & Hf). rewrite Hf in Hsf.
    cbn [subframe_archives] in Hsf. clear - Hsas IH Hsf Hb.
    revert IH Hsf. induction Hsas as [|x sa l sas Hx Hrest IHsas]; intros IH Hsf;
      [contradiction|].
    inversion IH as [|? ? Px IHl]; subst.
    destruct Hsf as [<-|Hsf].
    + exact (Px sa Hx b Hb).
    + exact (IHsas IHl Hsf).
Qed.

Lemma create_archive_complete_witness :
  let d := ArchiveDict
             (Some (ResourceDict (Some (PBytes "<html></html>")) (Some "text/html")
                                 (Some "https://x/index.html") None None))
             (Some [ResourceDict (Some (PBytes "PNG1")) (Some "image/png")
                                 (Some "https://x/a.png") None None])
             (Some [ArchiveDict
                      (Some (ResourceDict (Some (PBytes "<html></html>")) (Some "text/html")
                                          (Some "https://x/f.html") None None))
                      None None]) in
  exists a, create_archive (fun _ => false) (fun s _ => Ok s) d = Ok a /\
    forall b, In b (archive_tree a) -> make_local_paths b = Ok b /\ map_inj (local_paths b).
Proof.
  cbv zeta.
  match goal with |- exists a, create_archive ?i ?e ?d = Ok a /\ _ =>
    destruct (create_archive i e d) as [a|err] eqn:E;
    [exists a; split; [reflexivity|exact (create_archive_complete i e d a E)]
    |vm_compute in E; discriminate]
  end.
Defined.

(** Loading keeps every resource: the archive [_create_from_plist_data]
    builds holds as many resources ([resource_count]) as the property
    list has resource dictionaries, subframes included. *)
Theorem create_archive_count (itm : string -> bool)
    (enc : string -> option string -> result string) (d : archive_dict) (a : archive) :
  create_archive itm enc d = Ok a -> resource_count a = dict_resource_count d.
Proof.
  revert a. induction d as [main subs frames IH] using archive_dict_ind'.
  intros a H.
  destruct (create_archive_inv itm enc main subs frames a H)
    as (md & m & rs & sas & -> & _ & Hrs & Hsas & Hmk).
  destruct (make_local_paths_shape _ _ Hmk) as (Hm & Hs & Hf).
  destruct a as [m' rs' sas' lp']. cbn in Hm, Hs, Hf. subst m' rs' sas'.
  clear H Hmk. cbn [resource_count dict_resource_count main_resource subresources
                    subframe_archives].
  apply create_resources_length in Hrs.
  assert ((fix go (l : list archive) : nat :=
             match l with [] => 0 | sf :: rest => resource_count sf + go rest end) sas =
          (fix go (l : list archive_dict) : nat :=
             match l with [] => 0 | x :: rest => dict_resource_count x + go rest end)
            (match frames with Some l => l | None => [] end)) as Hgo.
  { induction Hsas as [|x sa l sas Hx Hrest IHsas]; [reflexivity|].
    inversion IH as [|? ? Px IHl]; subst. cbn. rewrite (Px sa Hx). f_equal. by apply IHsas. }
  rewrite Hgo. destruct subs, frames; cbn in Hrs |- *; lia.
Qed.

Lemma create_archive_count_witness :
  let d := ArchiveDict
             (Some (ResourceDict (Some (PBytes "<html></html>")) (Some "text/html")
                                 (Some "https://x/index.html") None None))
             (Some [ResourceDict (Some (PBytes "PNG1")) (Some "image/png")
                                 (Some "https://x/a.png") None None])
             (Some [ArchiveDict
                      (Some (ResourceDict (Some (PBytes "<html></html>")) (Some "text/html")
                                          (Some "https://x/f.html") None None))
                      None None]) in
  exists a, create_archive (fun _ => false) (fun s _ => Ok s) d = Ok a /\
    resource_count a = 3.
Proof.
  cbv zeta.
  match goal with |- exists a, create_archive ?i ?e ?d = Ok a /\ _ =>
    destruct (create_archive i e d) as [a|err] eqn:E;
    [exists a; split; [reflexivity|exact (create_archive_count i e d a E)]
    |vm_compute in E; discriminate]
  end.
Defined.
